(** * Upscale client: a model of [main.py] and its specification

    The script reads an image, base64-encodes it, sends it to a remote
    prediction service, decodes the answer, writes it next to the source
    (or into the working directory) and prints four report lines.

    The model follows the script statement by statement.  Everything the
    script receives from outside (the service, the file system faults, the
    image decoder, the working directory) is a field of an environment
    record; the file system, the two output streams and the trace of
    external calls form the state that the script threads along. *)

From Stdlib Require Import ZArith NArith Ascii String List Lia.
From Stdlib Require Import Strings.Byte.
From stdpp Require Import base option gmap strings list pretty.
Import ListNotations.

Local Open Scope string_scope.
Local Open Scope list_scope.

(* ===================================================================== *)
(** * Python's [base64] pair *)
(* ===================================================================== *)

(** [base64.b64encode] and [base64.b64decode] belong to the Python standard
    library, not to the repository.  They are written here after RFC 4648
    and CPython's [binascii]: the encoder groups the input three bytes at a
    time, the decoder is the lenient one that [b64decode] uses when
    [validate] is left at [False] (characters outside the alphabet are
    skipped, decoding stops at a complete pad sequence). *)
Module Base64.
Local Open Scope N_scope.

Definition alphabet : string :=
  "ABCDEFGHIJKLMNOPQRSTUVWXYZabcdefghijklmnopqrstuvwxyz0123456789+/".

Definition PAD : ascii := "="%char.

(** [table_b2a v]: the character that stands for the sextet [v]. *)
Definition table_b2a (v : N) : ascii :=
  match String.get (N.to_nat v) alphabet with
  | Some c => c
  | None => PAD
  end.

(** [table_a2b c]: the sextet of an alphabet character, [None] for every
    other character (the pad included). *)
Definition table_a2b (c : ascii) : option N :=
  let n := N_of_ascii c in
  if (65 <=? n) && (n <=? 90) then Some (n - 65)
  else if (97 <=? n) && (n <=? 122) then Some (n - 71)
  else if (48 <=? n) && (n <=? 57) then Some (n + 4)
  else if n =? 43 then Some 62
  else if n =? 47 then Some 63
  else None.

(** An output byte: the low eight bits of [n]. *)
Definition byte_of_N (n : N) : byte := byte_of_ascii (ascii_of_N n).

(** The four sextets of a full group, and the two short tails. *)
Definition sextet1 (b1 : N) : N := N.shiftr b1 2.
Definition sextet2 (b1 b2 : N) : N :=
  N.lor (N.shiftl (N.land b1 3) 4) (N.shiftr b2 4).
Definition sextet3 (b2 b3 : N) : N :=
  N.lor (N.shiftl (N.land b2 15) 2) (N.shiftr b3 6).
Definition sextet4 (b3 : N) : N := N.land b3 63.

Fixpoint b2a_base64 (bs : list byte) : string :=
  match bs with
  | [] => ""
  | [b1] =>
      let n1 := Byte.to_N b1 in
      String (table_b2a (sextet1 n1))
        (String (table_b2a (sextet2 n1 0))
           (String PAD (String PAD "")))
  | [b1; b2] =>
      let n1 := Byte.to_N b1 in
      let n2 := Byte.to_N b2 in
      String (table_b2a (sextet1 n1))
        (String (table_b2a (sextet2 n1 n2))
           (String (table_b2a (sextet3 n2 0))
              (String PAD "")))
  | b1 :: b2 :: b3 :: rest =>
      let n1 := Byte.to_N b1 in
      let n2 := Byte.to_N b2 in
      let n3 := Byte.to_N b3 in
      String (table_b2a (sextet1 n1))
        (String (table_b2a (sextet2 n1 n2))
           (String (table_b2a (sextet3 n2 n3))
              (String (table_b2a (sextet4 n3))
                 (b2a_base64 rest))))
  end.

(** Why a decoding stops without a result. *)
Inductive a2b_error :=
| OneExtraChar (data_chars : N)
| IncorrectPadding.

(** The decoder's loop.  [quad_pos] is the position inside the current
    group of four, [leftchar] the bits carried over from the previous
    character, [pads] the number of pad characters seen since the last
    data character, [out] the bytes produced so far, last one first. *)
Fixpoint a2b_loop (s : string) (quad_pos : nat) (leftchar : N) (pads : nat)
    (out : list byte) : a2b_error + list byte :=
  match s with
  | EmptyString =>
      match quad_pos with
      | O => inr (rev out)
      | 1%nat => inl (OneExtraChar (N.of_nat (length out) / 3 * 4 + 1))
      | _ => inl IncorrectPadding
      end
  | String c s' =>
      if Ascii.eqb c PAD then
        if (2 <=? quad_pos)%nat then
          if (4 <=? quad_pos + S pads)%nat then inr (rev out)
          else a2b_loop s' quad_pos leftchar (S pads) out
        else a2b_loop s' quad_pos leftchar pads out
      else
        match table_a2b c with
        | None => a2b_loop s' quad_pos leftchar pads out
        | Some v =>
            match quad_pos with
            | 0%nat => a2b_loop s' 1 v 0 out
            | 1%nat =>
                a2b_loop s' 2 (N.land v 15) 0
                  (byte_of_N (N.lor (N.shiftl leftchar 2) (N.shiftr v 4)) :: out)
            | 2%nat =>
                a2b_loop s' 3 (N.land v 3) 0
                  (byte_of_N (N.lor (N.shiftl leftchar 4) (N.shiftr v 2)) :: out)
            | _ =>
                a2b_loop s' 0 0 0
                  (byte_of_N (N.lor (N.shiftl leftchar 6) v) :: out)
            end
        end
  end.

Definition a2b_base64 (s : string) : a2b_error + list byte :=
  a2b_loop s 0 0 0 [].

Definition is_ascii (c : ascii) : bool := N_of_ascii c <? 128.

Fixpoint all_ascii (s : string) : bool :=
  match s with
  | EmptyString => true
  | String c s' => is_ascii c && all_ascii s'
  end.

(** The numbers below [k], for checks by enumeration. *)
Definition below (k : nat) : list N := map N.of_nat (seq 0 k).

End Base64.

(* ===================================================================== *)
(** * Python's [os.path] on POSIX *)
(* ===================================================================== *)

(** [os.path.split], [splitext], [join] and [basename] as [posixpath]
    defines them; the separator is the slash and the extension separator the
    dot. *)
Module posixpath.

Definition sep : ascii := "/"%char.
Definition extsep : ascii := "."%char.

(** [s.rfind(c)]: the index of the last [c] in [s], [-1] when there is
    none. *)
Fixpoint rfind (c : ascii) (s : string) : Z :=
  match s with
  | EmptyString => (-1)%Z
  | String a s' =>
      let r := rfind c s' in
      if (0 <=? r)%Z then (r + 1)%Z
      else if Ascii.eqb a c then 0%Z else (-1)%Z
  end.

(** The slices [s[:i]] and [s[i:]]. *)
Fixpoint str_take (i : nat) (s : string) : string :=
  match i, s with
  | S i', String a s' => String a (str_take i' s')
  | _, _ => EmptyString
  end.

Fixpoint str_drop (i : nat) (s : string) : string :=
  match i, s with
  | S i', String _ s' => str_drop i' s'
  | _, _ => s
  end.

(** [s.rstrip(c)]. *)
Fixpoint rstrip (c : ascii) (s : string) : string :=
  match s with
  | EmptyString => EmptyString
  | String a s' =>
      match rstrip c s' with
      | EmptyString => if Ascii.eqb a c then EmptyString else String a EmptyString
      | r => String a r
      end
  end.

(** [s == c * len(s)]. *)
Fixpoint all_chars (c : ascii) (s : string) : bool :=
  match s with
  | EmptyString => true
  | String a s' => Ascii.eqb a c && all_chars c s'
  end.

Definition nonempty (s : string) : bool :=
  match s with EmptyString => false | String _ _ => true end.

Definition startswith (c : ascii) (s : string) : bool :=
  match s with String a _ => Ascii.eqb a c | EmptyString => false end.

Fixpoint endswith (c : ascii) (s : string) : bool :=
  match s with
  | EmptyString => false
  | String a EmptyString => Ascii.eqb a c
  | String _ s' => endswith c s'
  end.

(** [split(p)]: head and tail around the last slash; trailing slashes are
    stripped from the head unless it consists of slashes only. *)
Definition split (p : string) : string * string :=
  let i := Z.to_nat (rfind sep p + 1) in
  let head := str_take i p in
  let tail := str_drop i p in
  if nonempty head && negb (all_chars sep head)
  then (rstrip sep head, tail)
  else (head, tail).

Definition basename (p : string) : string :=
  str_drop (Z.to_nat (rfind sep p + 1)) p.

(** [splitext(p)]: the extension starts at the last dot of the last path
    component, unless only dots precede it there. *)
Definition splitext (p : string) : string * string :=
  let sepIndex := rfind sep p in
  let dotIndex := rfind extsep p in
  if (sepIndex <? dotIndex)%Z &&
     negb (all_chars extsep
             (str_drop (Z.to_nat (sepIndex + 1))
                (str_take (Z.to_nat dotIndex) p)))
  then (str_take (Z.to_nat dotIndex) p, str_drop (Z.to_nat dotIndex) p)
  else (p, EmptyString).

(** [join(a, b)] for two components. *)
Definition join (a b : string) : string :=
  if startswith sep b then b
  else if negb (nonempty a) || endswith sep a then a +:+ b
  else a +:+ String sep b.

End posixpath.

(* ===================================================================== *)
(** * Python values, exceptions and the state of a run *)
(* ===================================================================== *)

(** The values that travel to and from the prediction service: what JSON
    gives in Python.  The payload of a number plays no role here. *)
#[local] Unset Elimination Schemes.
Inductive pyval :=
| PyNone
| PyBool (b : bool)
| PyNum (z : Z)
| PyStr (s : string)
| PyList (l : list pyval)
| PyDict (d : gmap string pyval).
#[local] Set Elimination Schemes.

(** The classes of the exceptions that the script tells apart, and one for
    all others.  [OSError] stands for itself and for its subclasses other
    than the two that are named. *)
Inductive exn_class :=
| FileNotFoundError
| PermissionError
| OSError
| IndexError
| KeyError
| TypeError
| ValueError
| binascii_Error
| OtherException (name : string).

(** [sys.exit(code)] raises [SystemExit], which is not an [Exception]. *)
Inductive exn :=
| SystemExit (code : Z)
| Error (cls : exn_class) (msg : string).

(** The clauses [except FileNotFoundError], [except (PermissionError,
    OSError)] and [except Exception]. *)
Definition except_FileNotFoundError (e : exn) : bool :=
  match e with Error FileNotFoundError _ => true | _ => false end.

Definition except_OSError (e : exn) : bool :=
  match e with
  | Error FileNotFoundError _ | Error PermissionError _ | Error OSError _ => true
  | _ => false
  end.

Definition except_Exception (e : exn) : bool :=
  match e with Error _ _ => true | SystemExit _ => false end.

(** [str(e)] *)
Definition str_exn (e : exn) : string :=
  match e with
  | SystemExit code => pretty code
  | Error _ msg => msg
  end.

Definition class_name (c : exn_class) : string :=
  match c with
  | FileNotFoundError => "FileNotFoundError"
  | PermissionError => "PermissionError"
  | OSError => "OSError"
  | IndexError => "IndexError"
  | KeyError => "KeyError"
  | TypeError => "TypeError"
  | ValueError => "ValueError"
  | binascii_Error => "binascii.Error"
  | OtherException name => name
  end.

(** What the script does to the outside, in order. *)
Inductive event :=
| EvInit (project location : string)
| EvModel (name : string)
| EvOpenRead (path : string)
| EvPredict (instances : list pyval) (parameters : pyval)
| EvAccess (path : string)
| EvOpenWrite (path : string)
| EvGetsize (path : string).

(** The state: the files, each under the name that the system resolves
    its paths to; the lines printed on the two streams; and the trace of
    external calls, oldest first. *)
Record World := {
  fs : gmap string (list byte);
  stdout : list string;
  stderr : list string;
  trace : list event;
}.

Inductive result (A : Type) :=
| Val (a : A)
| Exc (e : exn).
Arguments Val {A} a.
Arguments Exc {A} e.

(** A statement: from a state to a value or a raised exception, and the
    state it leaves. *)
Definition M (A : Type) : Type := World → result A * World.

Definition mret {A} (a : A) : M A := λ w, (Val a, w).

Definition mbind {A B} (m : M A) (k : A → M B) : M B :=
  λ w, match m w with
       | (Val a, w') => k a w'
       | (Exc e, w') => (Exc e, w')
       end.

Definition raise {A} (e : exn) : M A := λ w, (Exc e, w).

Declare Scope py_scope.
Delimit Scope py_scope with py.
Notation "x <- m ;; k" := (mbind m (λ x, k))
  (at level 100, m at next level, right associativity) : py_scope.
Notation "m ;; k" := (mbind m (λ _, k))
  (at level 100, right associativity) : py_scope.
Local Open Scope py_scope.

(** [try: body / except C1: h1 / except C2 as e: h2 ...]: the first clause
    whose class test accepts the exception handles it. *)
Definition try_except {A} (body : M A)
    (clauses : list ((exn → bool) * (exn → M A))) : M A :=
  λ w, match body w with
       | (Val a, w') => (Val a, w')
       | (Exc e, w') =>
           match List.find (λ cl, fst cl e) clauses with
           | Some cl => snd cl e w'
           | None => (Exc e, w')
           end
       end.

Definition print_out (line : string) : M unit :=
  λ w, (Val tt, {| fs := fs w; stdout := stdout w ++ [line];
                   stderr := stderr w; trace := trace w |}).

Definition print_err (line : string) : M unit :=
  λ w, (Val tt, {| fs := fs w; stdout := stdout w;
                   stderr := stderr w ++ [line]; trace := trace w |}).

Definition emit (ev : event) : M unit :=
  λ w, (Val tt, {| fs := fs w; stdout := stdout w;
                   stderr := stderr w; trace := trace w ++ [ev] |}).

Definition sys_exit {A} (code : Z) : M A := raise (SystemExit code).

(** A library call that fails when the environment says so. *)
Definition fault := option (exn_class * string).

Definition check_fault (f : fault) : M unit :=
  match f with
  | Some (cls, msg) => raise (Error cls msg)
  | None => mret tt
  end.

(* ===================================================================== *)
(** * The environment *)
(* ===================================================================== *)

(** The two values that [choices] lets through as upscale factor. *)
Inductive choice := x2 | x4.

Definition choice_str (c : choice) : string :=
  match c with x2 => "x2" | x4 => "x4" end.

(** [argparse] leaving the program: exit status and what it printed. *)
Record ArgparseExit := {
  status : Z;
  out_lines : list string;
  err_lines : list string;
}.

(** What [model.predict] returns: the list of predictions is all that the
    script reads from it. *)
Record Prediction := { predictions : list pyval }.

(** Everything the run receives from outside.  The answers do not change
    during one run. *)
Record Env := {
  (** [os.getcwd()] and [os.path.abspath] *)
  getcwd : string;
  abspath : string → string;
  (** the file that a path names, once the system has followed the working
      directory and the links: two paths with one answer name one file *)
  resolve : string → string;
  (** [aiplatform.init(project, location)] and [aiplatform.Model(name)] *)
  init_fault : string → string → fault;
  model_fault : string → fault;
  (** [model.predict(instances, parameters)] *)
  predict : list pyval → pyval → (exn_class * string) + Prediction;
  (** a failure of [open(path, "rb")] or [read] other than the plain
      absence of the file: a directory in the way, a name too long, no
      permission, an error of the device, whether the file is there or not *)
  read_fault : string → fault;
  (** [os.access(path, os.W_OK)] *)
  access_W_OK : string → bool;
  (** a failure of [open(path, "wb")], [write] or the closing of the file *)
  write_fault : string → fault;
  (** what an attempt that fails with an [OSError] leaves at the path:
      nothing new when [open] itself failed ([None]), or the file that
      [open] created or emptied, with so many bytes of the data in it *)
  write_residue : string → option nat;
  (** [Image.open(io.BytesIO(data)).size] *)
  image_size : list byte → (exn_class * string) + (N * N);
  (** [str(response)] and [repr] of a string *)
  str_Prediction : Prediction → string;
  repr_str : string → string;
  (** the program name in the usage text *)
  prog : string;
  (** what [argparse] does with a command line that holds option syntax
      (a word that starts with a dash): it leaves the program, or hands
      over two positional values of which the second passed [choices] *)
  argparse_options : list string → ArgparseExit + (string * choice);
}.

(** The constants at the top of the script. *)
Record Config := {
  PROJECT_ID : string;
  LOCATION : string;
}.

Definition MODEL_NAME : string := "imagegeneration@006".

(** The script as it is in the repository. *)
Definition shipped : Config :=
  {| PROJECT_ID := "your-gcp-project-id"; LOCATION := "us-central1" |}.

(* ===================================================================== *)
(** * The calls the script makes *)
(* ===================================================================== *)

Definition aiplatform_init (env : Env) (project location : string) : M unit :=
  emit (EvInit project location) ;;
  check_fault (init_fault env project location).

Definition aiplatform_Model (env : Env) (name : string) : M unit :=
  emit (EvModel name) ;;
  check_fault (model_fault env name).

Definition model_predict (env : Env) (instances : list pyval)
    (parameters : pyval) : M Prediction :=
  emit (EvPredict instances parameters) ;;
  match predict env instances parameters with
  | inl (cls, msg) => raise (Error cls msg)
  | inr response => mret response
  end.

(** [with open(path, "rb") as f: f.read()] *)
Definition read_file (env : Env) (path : string) : M (list byte) :=
  emit (EvOpenRead path) ;;
  λ w, match read_fault env path with
       | Some (cls, msg) => (Exc (Error cls msg), w)
       | None =>
           match fs w !! resolve env path with
           | None => (Exc (Error FileNotFoundError
                             ("[Errno 2] No such file or directory: "
                              +:+ repr_str env path)), w)
           | Some data => (Val data, w)
           end
       end.

Definition os_access (env : Env) (path : string) : M bool :=
  emit (EvAccess path) ;;
  mret (access_W_OK env path).

(** The files after an attempt to write [data] at [path] has failed with
    an [OSError]. *)
Definition left_behind (env : Env) (path : string) (data : list byte)
    (files : gmap string (list byte)) : gmap string (list byte) :=
  match write_residue env path with
  | Some n => <[resolve env path := take n data]> files
  | None => files
  end.

(** The files after an attempt to write [data] at [path] that the
    environment lets fail.  An exception that is no [OSError] (a [ValueError]
    for a path with a NUL byte) comes from [open] before the system is asked,
    and leaves nothing. *)
Definition failed_write (env : Env) (path : string) (data : list byte)
    (files : gmap string (list byte)) : gmap string (list byte) :=
  match write_fault env path with
  | Some (cls, msg) =>
      if except_OSError (Error cls msg) then left_behind env path data files
      else files
  | None => files
  end.

(** [with open(path, "wb") as f: f.write(data)]: after a success the file
    that the path names holds exactly [data]; [open] creates or empties the
    file before anything is written, so a failure can leave the file empty
    or with a part of the data. *)
Definition write_file (env : Env) (path : string) (data : list byte) : M unit :=
  emit (EvOpenWrite path) ;;
  λ w, match write_fault env path with
       | None =>
           (Val tt, {| fs := <[resolve env path := data]> (fs w);
                       stdout := stdout w; stderr := stderr w;
                       trace := trace w |})
       | Some (cls, msg) =>
           (Exc (Error cls msg),
            {| fs := failed_write env path data (fs w);
               stdout := stdout w; stderr := stderr w; trace := trace w |})
       end.

(** [os.path.getsize(path)] *)
Definition os_path_getsize (env : Env) (path : string) : M N :=
  emit (EvGetsize path) ;;
  λ w, match fs w !! resolve env path with
       | Some data => (Val (N.of_nat (length data)), w)
       | None => (Exc (Error FileNotFoundError
                         ("[Errno 2] No such file or directory: " +:+ repr_str env path)), w)
       end.

(** [Image.open(io.BytesIO(data)).size]: works on the bytes in memory, no
    file is involved. *)
Definition Image_open_size (env : Env) (data : list byte) : M (N * N) :=
  match image_size env data with
  | inl (cls, msg) => raise (Error cls msg)
  | inr size => mret size
  end.

(** [base64.b64encode(data).decode("utf-8")] *)
Definition b64encode (data : list byte) : string := Base64.b2a_base64 data.

(** [base64.b64decode(v)] *)
Definition b64decode (v : pyval) : M (list byte) :=
  match v with
  | PyStr s =>
      if Base64.all_ascii s then
        match Base64.a2b_base64 s with
        | inr data => mret data
        | inl Base64.IncorrectPadding =>
            raise (Error binascii_Error "Incorrect padding")
        | inl (Base64.OneExtraChar n) =>
            raise (Error binascii_Error
                     ("Invalid base64-encoded string: number of data characters ("
                      +:+ pretty n +:+ ") cannot be 1 more than a multiple of 4"))
        end
      else raise (Error ValueError
                    "string argument should contain only ASCII characters")
  | _ => raise (Error TypeError
                  "argument should be a bytes-like object or ASCII string")
  end.

(** [l[0]] *)
Definition py_first (l : list pyval) : M pyval :=
  match l with
  | v :: _ => mret v
  | [] => raise (Error IndexError "list index out of range")
  end.

(** [sub in s] for strings *)
Fixpoint str_contains (sub s : string) : bool :=
  String.prefix sub s ||
  match s with
  | EmptyString => false
  | String _ s' => str_contains sub s'
  end.

(** [key in v] *)
Definition py_contains (key : string) (v : pyval) : M bool :=
  match v with
  | PyDict d => mret (bool_decide (is_Some (d !! key)))
  | PyList l =>
      mret (existsb (λ x, match x with PyStr s => String.eqb s key | _ => false end) l)
  | PyStr s => mret (str_contains key s)
  | PyNone | PyBool _ | PyNum _ =>
      raise (Error TypeError "argument is not iterable")
  end.

(** [v[key]] *)
Definition py_getitem (v : pyval) (key : string) : M pyval :=
  match v with
  | PyDict d =>
      match d !! key with
      | Some x => mret x
      | None => raise (Error KeyError key)
      end
  | PyStr _ => raise (Error TypeError "string indices must be integers")
  | PyList _ => raise (Error TypeError "list indices must be integers or slices, not str")
  | PyNone | PyBool _ | PyNum _ =>
      raise (Error TypeError "object is not subscriptable")
  end.

(* ===================================================================== *)
(** * The script *)
(* ===================================================================== *)

Definition model_resource (cfg : Config) : string :=
  "projects/" +:+ PROJECT_ID cfg +:+ "/locations/" +:+ LOCATION cfg
  +:+ "/publishers/google/models/" +:+ MODEL_NAME.

(** Step 4: the two parts of the request. *)
Definition instance (encoded_image : string) : pyval :=
  PyDict {[ "image" := PyDict {[ "bytesBase64Encoded" := PyStr encoded_image ]} ]}.

Definition parameters (factor : string) : pyval :=
  PyDict (<[ "mode" := PyStr "upscale" ]>
            {[ "upscaleConfig" := PyDict {[ "upscaleFactor" := PyStr factor ]} ]}).

(** Step 7: the name and the place of the output. *)
Definition source_dir (source_path : string) : string :=
  fst (posixpath.split source_path).

Definition source_filename (source_path : string) : string :=
  snd (posixpath.split source_path).

Definition output_filename (source_path factor : string) : string :=
  let '(filename_base, ext) := posixpath.splitext (source_filename source_path) in
  filename_base +:+ "_upscaled_" +:+ factor +:+ ext.

Definition target_dir (env : Env) (source_path : string) : string :=
  if posixpath.nonempty (source_dir source_path)
  then source_dir source_path
  else getcwd env.

Definition primary_path (env : Env) (source_path factor : string) : string :=
  posixpath.join (target_dir env source_path) (output_filename source_path factor).

Definition fallback_path (env : Env) (source_path factor : string) : string :=
  posixpath.join (getcwd env) (output_filename source_path factor).

(** Steps 1 and 2 *)
Definition connect (cfg : Config) (env : Env) : M unit :=
  try_except
    (aiplatform_init env (PROJECT_ID cfg) (LOCATION cfg))
    [ (except_Exception, λ e,
        print_err "Error initializing Vertex AI. Did you set GOOGLE_APPLICATION_CREDENTIALS?" ;;
        print_err ("Details: " +:+ str_exn e) ;;
        sys_exit 1) ] ;;
  aiplatform_Model env (model_resource cfg).

(** Step 3 *)
Definition read_and_encode (env : Env) (source_path : string) : M string :=
  try_except
    (image_bytes <- read_file env source_path ;;
     mret (b64encode image_bytes))
    [ (except_FileNotFoundError, λ _,
        print_err ("Error: Source file not found at " +:+ source_path) ;;
        sys_exit 1);
      (except_Exception, λ e,
        print_err ("Error reading source file: " +:+ str_exn e) ;;
        sys_exit 1) ].

(** Steps 5 and 6 *)
Definition call_and_decode (env : Env) (source_path factor encoded_image : string)
    : M (list byte) :=
  print_err ("Sending request to Vertex AI to upscale "
             +:+ posixpath.basename source_path +:+ " " +:+ factor +:+ "...") ;;
  try_except
    (response <- model_predict env [instance encoded_image] (parameters factor) ;;
     first <- py_first (predictions response) ;;
     present <- py_contains "bytesBase64Encoded" first ;;
     (if present then mret tt
      else
        print_err ("Error: API response did not contain an image. "
                   +:+ str_Prediction env response) ;;
        sys_exit 1) ;;
     first <- py_first (predictions response) ;;
     upscaled_base64 <- py_getitem first "bytesBase64Encoded" ;;
     b64decode upscaled_base64)
    [ (except_Exception, λ e,
        print_err ("Error during API call: " +:+ str_exn e) ;;
        print_err "Please ensure Vertex AI API is enabled and your account has permissions." ;;
        sys_exit 1) ].

(** Step 8 (the comment "7. Determine output path" and the two [try]
    blocks): the result is the path that was written. *)
Definition save (env : Env) (source_path factor : string)
    (upscaled_bytes : list byte) : M string :=
  let output_path := primary_path env source_path factor in
  try_except
    (writable <- os_access env (target_dir env source_path) ;;
     (if writable then mret tt else raise (Error PermissionError "")) ;;
     write_file env output_path upscaled_bytes ;;
     mret output_path)
    [ (except_OSError, λ _,
        print_err ("Warning: Target directory '" +:+ target_dir env source_path
                   +:+ "' not writable.") ;;
        let output_path := fallback_path env source_path factor in
        print_err ("Saving to current working directory: " +:+ output_path) ;;
        try_except
          (write_file env output_path upscaled_bytes)
          [ (except_Exception, λ e,
              print_err ("Error: Could not write to current working directory either: "
                         +:+ str_exn e) ;;
              sys_exit 1) ] ;;
        mret output_path) ].

(** The last step: size from the file, dimensions from the bytes in
    memory, four lines on standard output. *)
Definition report (env : Env) (source_path output_path : string)
    (upscaled_bytes : list byte) : M unit :=
  file_size <- os_path_getsize env output_path ;;
  size <- Image_open_size env upscaled_bytes ;;
  print_out ("Source Image:     " +:+ abspath env source_path) ;;
  print_out ("Upscaled Image:   " +:+ abspath env output_path) ;;
  print_out ("New Filesize:     " +:+ pretty file_size +:+ " bytes") ;;
  print_out ("New Dimensions:   " +:+ pretty (fst size) +:+ "x" +:+ pretty (snd size)).

Definition upscale_image (cfg : Config) (env : Env)
    (source_path factor : string) : M unit :=
  connect cfg env ;;
  encoded_image <- read_and_encode env source_path ;;
  upscaled_bytes <- call_and_decode env source_path factor encoded_image ;;
  output_path <- save env source_path factor upscaled_bytes ;;
  report env source_path output_path upscaled_bytes.

(** ** The command line *)

Definition choices : list string := ["x2"; "x4"].

Definition usage (env : Env) : string :=
  "usage: " +:+ prog env +:+ " [-h] source_image {x2,x4}".

(** [parser.error(message)]: usage and message on the error stream, exit
    status 2. *)
Definition parser_error {A} (env : Env) (message : string) : M A :=
  print_err (usage env) ;;
  print_err (prog env +:+ ": error: " +:+ message) ;;
  sys_exit 2.

Definition is_option_syntax (word : string) : bool :=
  posixpath.startswith "-"%char word.

Definition join_with (separator : string) (words : list string) : string :=
  String.concat separator words.

(** [parse_args()] on the words after the program name.  Two positional
    arguments are filled from left to right, the second is checked against
    [choices] when it is filled; a command line with option syntax is the
    library's business. *)
Definition parse_args (env : Env) (argv : list string) : M (string * string) :=
  if existsb is_option_syntax argv then
    match argparse_options env argv with
    | inl leave =>
        λ w, (Exc (SystemExit (status leave)),
              {| fs := fs w; stdout := stdout w ++ out_lines leave;
                 stderr := stderr w ++ err_lines leave; trace := trace w |})
    | inr (source_image, upscale_factor) =>
        mret (source_image, choice_str upscale_factor)
    end
  else
    match argv with
    | [] =>
        parser_error env
          "the following arguments are required: source_image, upscale_factor"
    | [_] =>
        parser_error env "the following arguments are required: upscale_factor"
    | source_image :: upscale_factor :: extra =>
        if bool_decide (upscale_factor ∈ choices) then
          match extra with
          | [] => mret (source_image, upscale_factor)
          | _ => parser_error env
                   ("unrecognized arguments: " +:+ join_with " " extra)
          end
        else
          parser_error env
            ("argument upscale_factor: invalid choice: " +:+ repr_str env upscale_factor
             +:+ " (choose from 'x2', 'x4')")
    end.

(** The block under [if __name__ == "__main__"]. *)
Definition main (cfg : Config) (env : Env) (argv : list string) : M unit :=
  (if String.eqb (PROJECT_ID cfg) "your-gcp-project-id" then
     print_err "Error: Please edit the PROJECT_ID and LOCATION constants at the top of the script." ;;
     sys_exit 1
   else mret tt) ;;
  args <- parse_args env argv ;;
  upscale_image cfg env (fst args) (snd args).

(** ** A run of the process *)

Record Outcome := {
  exit_status : Z;
  final : World;
}.

(** The interpreter around the script: a normal end is status 0,
    [SystemExit] gives its code, any other exception is printed as a
    traceback (its last line is kept here) and gives status 1. *)
Definition run (script : M unit) (w : World) : Outcome :=
  match script w with
  | (Val _, w') => {| exit_status := 0; final := w' |}
  | (Exc (SystemExit code), w') => {| exit_status := code; final := w' |}
  | (Exc (Error cls msg), w') =>
      {| exit_status := 1;
         final := {| fs := fs w'; stdout := stdout w';
                     stderr := stderr w' ++ ["Traceback (most recent call last):";
                                             class_name cls +:+ ": " +:+ msg];
                     trace := trace w' |} |}
  end.

(** A process starts with nothing printed and nothing called. *)
Definition start (files : gmap string (list byte)) : World :=
  {| fs := files; stdout := []; stderr := []; trace := [] |}.

(* ===================================================================== *)
(** * Vocabulary of the statements *)
(* ===================================================================== *)

(** The state after some more external calls and diagnostics, after a file
    was written, after lines were printed. *)
Definition logged (evs : list event) (errs : list string) (w : World) : World :=
  {| fs := fs w; stdout := stdout w;
     stderr := stderr w ++ errs; trace := trace w ++ evs |}.

Definition wrote (path : string) (data : list byte) (w : World) : World :=
  {| fs := <[path := data]> (fs w); stdout := stdout w;
     stderr := stderr w; trace := trace w |}.

Definition refiled (files : gmap string (list byte)) (w : World) : World :=
  {| fs := files; stdout := stdout w; stderr := stderr w; trace := trace w |}.

Definition printed (lines : list string) (w : World) : World :=
  {| fs := fs w; stdout := stdout w ++ lines;
     stderr := stderr w; trace := trace w |}.

(** The progress line of step 5 and the hint of its handler. *)
Definition sending (source_path factor : string) : string :=
  "Sending request to Vertex AI to upscale "
  +:+ posixpath.basename source_path +:+ " " +:+ factor +:+ "...".

Definition permissions_hint : string :=
  "Please ensure Vertex AI API is enabled and your account has permissions.".

(** The two lines that announce the fallback. *)
Definition fallback_warning (env : Env) (source_path factor : string) : list string :=
  [ "Warning: Target directory '" +:+ target_dir env source_path +:+ "' not writable.";
    "Saving to current working directory: " +:+ fallback_path env source_path factor ].

(** The four report lines. *)
Definition report_lines (env : Env) (source_path output_path : string)
    (file_size width height : N) : list string :=
  [ "Source Image:     " +:+ abspath env source_path;
    "Upscaled Image:   " +:+ abspath env output_path;
    "New Filesize:     " +:+ pretty file_size +:+ " bytes";
    "New Dimensions:   " +:+ pretty width +:+ "x" +:+ pretty height ].

(** Kinds of events. *)
Definition is_predict (ev : event) : bool :=
  match ev with EvPredict _ _ => true | _ => false end.

(** Steps 1 to 6: the part of the script that obtains the upscaled bytes. *)
Definition obtain (cfg : Config) (env : Env) (source_path factor : string)
    : M (list byte) :=
  connect cfg env ;;
  encoded_image <- read_and_encode env source_path ;;
  call_and_decode env source_path factor encoded_image.

(** Steps 7 to 9: the part that saves and reports them. *)
Definition finish (env : Env) (source_path factor : string)
    (upscaled_bytes : list byte) : M unit :=
  output_path <- save env source_path factor upscaled_bytes ;;
  report env source_path output_path upscaled_bytes.

(** Both steps of the connection go through. *)
Definition connects (cfg : Config) (env : Env) : Prop :=
  init_fault env (PROJECT_ID cfg) (LOCATION cfg) = None ∧
  model_fault env (model_resource cfg) = None.

(** The source file is there and is read without a fault. *)
Definition readable (env : Env) (files : gmap string (list byte))
    (source_path : string) (image_bytes : list byte) : Prop :=
  files !! resolve env source_path = Some image_bytes ∧
  read_fault env source_path = None.

(** The primary target cannot be written: [os.access] says so, or the
    attempt fails with an [OSError]. *)
Definition not_writable (env : Env) (source_path factor : string) : Prop :=
  access_W_OK env (target_dir env source_path) = false ∨
  ∃ cls msg, write_fault env (primary_path env source_path factor) = Some (cls, msg) ∧
             except_OSError (Error cls msg) = true.

(** The files when step 8 is done with the primary path and has not put
    the data there: as they were when [os.access] refused the target, and
    otherwise with what the failed attempt has left. *)
Definition primary_residue (env : Env) (source_path factor : string)
    (data : list byte) (files : gmap string (list byte)) : gmap string (list byte) :=
  if access_W_OK env (target_dir env source_path)
  then failed_write env (primary_path env source_path factor) data files
  else files.

(** Where step 8 can leave the file, and the warning that goes with it:
    the primary path when the target takes it, otherwise the fallback path
    when the working directory takes it. *)
Definition saved_at (env : Env) (source_path factor : string)
    (output_path : string) (warning : list string) : Prop :=
  (output_path = primary_path env source_path factor ∧
   warning = [] ∧
   access_W_OK env (target_dir env source_path) = true ∧
   write_fault env (primary_path env source_path factor) = None)
  ∨
  (output_path = fallback_path env source_path factor ∧
   warning = fallback_warning env source_path factor ∧
   not_writable env source_path factor ∧
   write_fault env (fallback_path env source_path factor) = None).

Definition is_open_read (ev : event) : bool :=
  match ev with EvOpenRead _ => true | _ => false end.

(** The test of step 6 finds no image field in a prediction. *)
Definition lacks_field (first : pyval) : Prop :=
  py_contains "bytesBase64Encoded" first = mret false.

(** A line of the error stream shows the response. *)
Definition prints_response (env : Env) (response : Prediction) (w : World) : Prop :=
  ∃ line, In line (stderr w) ∧ str_contains (str_Prediction env response) line = true.

(** A path without a slash. *)
Definition bare_filename (p : string) : bool :=
  negb (existsb (Ascii.eqb posixpath.sep) (list_ascii_of_string p)).

(** ** A sample environment

    One machine on which the statements are tried: a project that is
    configured, a working directory, one source picture, and a service,
    a file system and an image decoder whose answers are given. *)
Definition sample_cfg : Config :=
  {| PROJECT_ID := "demo-project"; LOCATION := "us-central1" |}.

Definition sample_picture : list byte := [x89; x50; x4e; x47; x0d; x0a].

Definition sample_files : gmap string (list byte) :=
  {[ "pics/cat.png" := sample_picture ]}.

Definition sample_env (answer : (exn_class * string) + Prediction)
    (writable : string → bool) (wfault : string → fault)
    (size : (exn_class * string) + (N * N)) : Env :=
  {| getcwd := "/home/user";
     abspath := λ p, if posixpath.startswith "/" p then p else "/home/user/" +:+ p;
     resolve := λ p, p;
     init_fault := λ _ _, None;
     model_fault := λ _, None;
     predict := λ _ _, answer;
     read_fault := λ p,
       if String.eqb p "pics/locked.png"
       then Some (PermissionError, "[Errno 13] Permission denied")
       else if String.eqb p "pics/cat.png/x"
       then Some (OSError, "[Errno 20] Not a directory: 'pics/cat.png/x'")
       else None;
     access_W_OK := writable;
     write_fault := wfault;
     write_residue := λ _, Some 0%nat;
     image_size := λ _, size;
     str_Prediction := λ r,
       match predictions r with
       | [] => "Prediction(predictions=[])"
       | _ => "Prediction(predictions=[...])"
       end;
     repr_str := λ s, "'" +:+ s +:+ "'";
     prog := "main.py";
     argparse_options := λ _,
       inl {| status := 0; out_lines := ["usage: main.py [-h] source_image {x2,x4}"]; err_lines := [] |} |}.

(** The service answers with one prediction that carries "TWFu", the
    encoding of the three bytes "Man". *)
Definition good_answer : (exn_class * string) + Prediction :=
  inr {| predictions := [PyDict {[ "bytesBase64Encoded" := PyStr "TWFu" ]}] |}.

Definition good_env : Env :=
  sample_env good_answer (λ _, true) (λ _, None) (inr (8%N, 6%N)).

(** The service answers without any prediction, and with a prediction
    that has no image field. *)
Definition empty_response : Prediction := {| predictions := [] |}.

Definition empty_env : Env :=
  sample_env (inr empty_response) (λ _, true) (λ _, None) (inr (8%N, 6%N)).

Definition fieldless_response : Prediction :=
  {| predictions := [PyDict {[ "mimeType" := PyStr "image/png" ]}] |}.

Definition fieldless_env : Env :=
  sample_env (inr fieldless_response) (λ _, true) (λ _, None) (inr (8%N, 6%N)).


(** The same machine with a disk that is full when the file next to the
    source is written: the file has been created and stays empty. *)
Definition fulldisk_env : Env :=
  sample_env good_answer (λ _, true)
    (λ p, if String.eqb p "pics/cat_upscaled_x2.png"
          then Some (OSError, "[Errno 28] No space left on device")
          else None)
    (inr (8%N, 6%N)).


(** ** More vocabulary, for the properties beyond the claims *)

(** A string without the character [c]. *)
Definition lacks (c : ascii) (s : string) : bool :=
  negb (existsb (Ascii.eqb c) (list_ascii_of_string s)).

(** The characters that the decoder looks at: the alphabet and the pad. *)
Definition b64_significant (c : ascii) : bool :=
  Ascii.eqb c Base64.PAD ||
  match Base64.table_a2b c with Some _ => true | None => false end.

Fixpoint str_filter (keep : ascii → bool) (s : string) : string :=
  match s with
  | EmptyString => EmptyString
  | String c s' =>
      if keep c then String c (str_filter keep s') else str_filter keep s'
  end.

(** The external calls of a run that goes straight through. *)
Definition straight_calls (cfg : Config) (env : Env) (source_path factor : string)
    (image_bytes : list byte) : list event :=
  [ EvInit (PROJECT_ID cfg) (LOCATION cfg);
    EvModel (model_resource cfg);
    EvOpenRead source_path;
    EvPredict [instance (b64encode image_bytes)] (parameters factor);
    EvAccess (target_dir env source_path);
    EvOpenWrite (primary_path env source_path factor);
    EvGetsize (primary_path env source_path factor) ].

(** More kinds of events, and the step of the script an event belongs
    to. *)
Definition is_open_write (ev : event) : bool :=
  match ev with EvOpenWrite _ => true | _ => false end.

Definition is_save_step (ev : event) : bool :=
  match ev with EvAccess _ | EvOpenWrite _ | EvGetsize _ => true | _ => false end.

Definition phase (ev : event) : nat :=
  match ev with
  | EvInit _ _ => 1
  | EvModel _ => 2
  | EvOpenRead _ => 3
  | EvPredict _ _ => 4
  | EvAccess _ => 5
  | EvOpenWrite _ => 6
  | EvGetsize _ => 7
  end.

(** The two lines of an exception that nothing catches. *)
Definition traceback (cls : exn_class) (msg : string) : list string :=
  [ "Traceback (most recent call last):"; class_name cls +:+ ": " +:+ msg ].

(** The service answers with a first prediction that is an object whose
    image field holds [v]. *)
Definition answers_with (env : Env) (image_bytes : list byte) (factor : string)
    (v : pyval) : Prop :=
  ∃ response d rest,
    predict env [instance (b64encode image_bytes)] (parameters factor) = inr response ∧
    predictions response = PyDict d :: rest ∧
    d !! "bytesBase64Encoded" = Some v.

(** The sample machine with a service that is down, with one whose payload
    is cut short, with a decoder that does not know the format, and with a
    path that the system refuses for another reason than an [OSError]. *)
Definition down_env : Env :=
  sample_env (inl (OtherException "ServiceUnavailable", "503 backend unavailable"))
    (λ _, true) (λ _, None) (inr (8%N, 6%N)).

Definition truncated_env : Env :=
  sample_env (inr {| predictions := [PyDict {[ "bytesBase64Encoded" := PyStr "TQ=" ]}] |})
    (λ _, true) (λ _, None) (inr (8%N, 6%N)).

Definition noimage_env : Env :=
  sample_env good_answer (λ _, true) (λ _, None)
    (inl (OtherException "PIL.UnidentifiedImageError", "cannot identify image file")).

Definition nullbyte_env : Env :=
  sample_env good_answer (λ _, true)
    (λ _, Some (ValueError, "embedded null byte")) (inr (8%N, 6%N)).



(** The sample machine without credentials, and with a model that the
    project does not have. *)
Definition with_connection (env : Env) (init model : fault) : Env :=
  {| getcwd := getcwd env; abspath := abspath env; resolve := resolve env;
     init_fault := λ _ _, init; model_fault := λ _, model;
     predict := predict env; read_fault := read_fault env;
     access_W_OK := access_W_OK env; write_fault := write_fault env;
     write_residue := write_residue env;
     image_size := image_size env; str_Prediction := str_Prediction env;
     repr_str := repr_str env; prog := prog env;
     argparse_options := argparse_options env |}.

Definition nocreds_env : Env :=
  with_connection good_env
    (Some (OtherException "DefaultCredentialsError",
           "Your default credentials were not found."))
    None.

Definition nomodel_env : Env :=
  with_connection good_env None
    (Some (OtherException "NotFound", "404 Publisher Model not found")).

(* ===================================================================== *)
(** * Facts about the base64 pair *)
(* ===================================================================== *)

Module Base64Facts.
Import Base64.
Local Open Scope N_scope.

Lemma below_spec k n : n < N.of_nat k → In n (below k).
Proof.
  intros Hn. unfold below. apply in_map_iff. exists (N.to_nat n).
  split; [lia|]. apply in_seq. lia.
Qed.

(** A boolean check that passes on all numbers below [k] holds for each. *)
Lemma check_below (k : nat) (P : N → bool) :
  forallb P (below k) = true → ∀ n, n < N.of_nat k → P n = true.
Proof.
  intros Hall n Hn. rewrite forallb_forall in Hall.
  apply Hall, below_spec, Hn.
Qed.

Lemma check_below2 (k : nat) (P : N → N → bool) :
  forallb (λ a, forallb (P a) (below k)) (below k) = true →
  ∀ a b, a < N.of_nat k → b < N.of_nat k → P a b = true.
Proof.
  intros Hall a b Ha Hb.
  apply (check_below k (P a)); [|exact Hb].
  apply (check_below k (λ a, forallb (P a) (below k))); assumption.
Qed.

(** Discharge [∀ a < 256, f a = g a] and its two-variable form by running
    through the bytes. *)
Ltac by_bytes1 a Ha :=
  apply N.eqb_eq;
  revert a Ha; apply (check_below 256); vm_compute; reflexivity.

Ltac by_bytes2 a b Ha Hb :=
  apply N.eqb_eq;
  revert a b Ha Hb;
  match goal with
  | |- ∀ a b, _ → _ → (?f =? ?g) = true =>
      apply (check_below2 256 (λ a b, f =? g))
  end;
  vm_compute; reflexivity.

Lemma table_a2b_b2a v : v < 64 → table_a2b (table_b2a v) = Some v.
Proof.
  intros Hv.
  assert (forallb (λ v, match table_a2b (table_b2a v) with
                        | Some w => w =? v
                        | None => false
                        end) (below 64) = true) as Hall
    by (vm_compute; reflexivity).
  pose proof (check_below 64 _ Hall v Hv) as Hc. cbv beta in Hc.
  destruct (table_a2b (table_b2a v)) as [w|]; [|discriminate].
  apply N.eqb_eq in Hc. by subst.
Qed.

Lemma table_b2a_not_pad v : v < 64 → Ascii.eqb (table_b2a v) PAD = false.
Proof.
  intros Hv.
  assert (forallb (λ v, negb (Ascii.eqb (table_b2a v) PAD)) (below 64) = true)
    as Hall by (vm_compute; reflexivity).
  pose proof (check_below 64 _ Hall v Hv) as Hc. cbv beta in Hc.
  by apply negb_true_iff in Hc.
Qed.

Lemma table_b2a_ascii v : is_ascii (table_b2a v) = true.
Proof.
  unfold table_b2a.
  destruct (String.get (N.to_nat v) alphabet) as [c|] eqn:Hget; [|reflexivity].
  assert (forallb is_ascii (list_ascii_of_string alphabet) = true) as Hall
    by (vm_compute; reflexivity).
  rewrite forallb_forall in Hall. apply Hall.
  clear Hall. revert Hget. generalize (N.to_nat v). generalize alphabet.
  intros s. induction s as [|a s IH]; intros [|n] Hget; simpl in *;
    try discriminate.
  - left. congruence.
  - right. eauto.
Qed.

(** The sextets are sextets. *)
Lemma sextet1_lt b1 : b1 < 256 → sextet1 b1 < 64.
Proof.
  intros H1. apply N.ltb_lt. revert b1 H1.
  apply (check_below 256). vm_compute. reflexivity.
Qed.

Lemma sextet2_lt b1 b2 : b1 < 256 → b2 < 256 → sextet2 b1 b2 < 64.
Proof.
  intros H1 H2. apply N.ltb_lt. revert b1 b2 H1 H2.
  apply (check_below2 256 (λ b1 b2, sextet2 b1 b2 <? 64)).
  vm_compute. reflexivity.
Qed.

Lemma sextet3_lt b2 b3 : b2 < 256 → b3 < 256 → sextet3 b2 b3 < 64.
Proof.
  intros H2 H3. apply N.ltb_lt. revert b2 b3 H2 H3.
  apply (check_below2 256 (λ b2 b3, sextet3 b2 b3 <? 64)).
  vm_compute. reflexivity.
Qed.

Lemma sextet4_lt b3 : b3 < 256 → sextet4 b3 < 64.
Proof.
  intros H3. apply N.ltb_lt. revert b3 H3.
  apply (check_below 256). vm_compute. reflexivity.
Qed.

(** The three bytes come back from the four sextets. *)
Lemma first_byte b1 b2 : b1 < 256 → b2 < 256 →
  N.lor (N.shiftl (sextet1 b1) 2) (N.shiftr (sextet2 b1 b2) 4) = b1.
Proof. intros H1 H2. by_bytes2 b1 b2 H1 H2. Qed.

Lemma carry_after_second b1 b2 : b1 < 256 → b2 < 256 →
  N.land (sextet2 b1 b2) 15 = N.shiftr b2 4.
Proof. intros H1 H2. by_bytes2 b1 b2 H1 H2. Qed.

Lemma second_byte b2 b3 : b2 < 256 → b3 < 256 →
  N.lor (N.shiftl (N.shiftr b2 4) 4) (N.shiftr (sextet3 b2 b3) 2) = b2.
Proof. intros H2 H3. by_bytes2 b2 b3 H2 H3. Qed.

Lemma carry_after_third b2 b3 : b2 < 256 → b3 < 256 →
  N.land (sextet3 b2 b3) 3 = N.shiftr b3 6.
Proof. intros H2 H3. by_bytes2 b2 b3 H2 H3. Qed.

Lemma third_byte b3 : b3 < 256 →
  N.lor (N.shiftl (N.shiftr b3 6) 6) (sextet4 b3) = b3.
Proof. intros H3. by_bytes1 b3 H3. Qed.

Lemma to_N_lt (b : byte) : Byte.to_N b < 256.
Proof. pose proof (Byte.to_N_bounded b). lia. Qed.

Lemma byte_of_N_to_N (b : byte) : byte_of_N (Byte.to_N b) = b.
Proof.
  unfold byte_of_N. rewrite <- ascii_of_byte_via_N.
  apply byte_of_ascii_of_byte.
Qed.

(** Lists, three elements at a time. *)
Lemma list_ind3 {A} (P : list A → Prop) :
  P [] →
  (∀ a, P [a]) →
  (∀ a b, P [a; b]) →
  (∀ a b c l, P l → P (a :: b :: c :: l)) →
  ∀ l, P l.
Proof.
  intros H0 H1 H2 H3 l.
  cut (P l ∧ (∀ a, P (a :: l)) ∧ (∀ a b, P (a :: b :: l))); [tauto|].
  induction l as [|x l (IHl & IHl1 & IHl2)]; auto.
Qed.

(** One data character through the decoder's loop. *)
Lemma a2b_loop_data v s quad_pos leftchar pads out :
  v < 64 →
  a2b_loop (String (table_b2a v) s) quad_pos leftchar pads out =
  match quad_pos with
  | 0%nat => a2b_loop s 1 v 0 out
  | 1%nat =>
      a2b_loop s 2 (N.land v 15) 0
        (byte_of_N (N.lor (N.shiftl leftchar 2) (N.shiftr v 4)) :: out)
  | 2%nat =>
      a2b_loop s 3 (N.land v 3) 0
        (byte_of_N (N.lor (N.shiftl leftchar 4) (N.shiftr v 2)) :: out)
  | _ =>
      a2b_loop s 0 0 0
        (byte_of_N (N.lor (N.shiftl leftchar 6) v) :: out)
  end.
Proof.
  intros Hv. cbn [a2b_loop].
  rewrite (table_b2a_not_pad v Hv), (table_a2b_b2a v Hv). reflexivity.
Qed.

(** The first two characters of a group give back its first byte. *)
Lemma a2b_loop_two b1 b2 s out :
  b2 < 256 →
  a2b_loop (String (table_b2a (sextet1 (Byte.to_N b1)))
              (String (table_b2a (sextet2 (Byte.to_N b1) b2)) s)) 0 0 0 out =
  a2b_loop s 2 (N.shiftr b2 4) 0 (b1 :: out).
Proof.
  intros H2. pose proof (to_N_lt b1) as H1.
  rewrite a2b_loop_data by (apply sextet1_lt; lia).
  rewrite a2b_loop_data by (apply sextet2_lt; lia).
  rewrite first_byte, carry_after_second, byte_of_N_to_N by lia.
  reflexivity.
Qed.

(** The third character gives back the second byte. *)
Lemma a2b_loop_third b2 b3 s out :
  b3 < 256 →
  a2b_loop (String (table_b2a (sextet3 (Byte.to_N b2) b3)) s)
    2 (N.shiftr (Byte.to_N b2) 4) 0 out =
  a2b_loop s 3 (N.shiftr b3 6) 0 (b2 :: out).
Proof.
  intros H3. pose proof (to_N_lt b2) as H2.
  rewrite a2b_loop_data by (apply sextet3_lt; lia).
  rewrite second_byte, carry_after_third, byte_of_N_to_N by lia.
  reflexivity.
Qed.

Lemma a2b_loop_b2a bs : ∀ out,
  a2b_loop (b2a_base64 bs) 0 0 0 out = inr (rev out ++ bs).
Proof.
  induction bs as [|b1|b1 b2|b1 b2 b3 rest IH] using list_ind3; intros out.
  - cbn. by rewrite app_nil_r.
  - cbn [b2a_base64]. rewrite a2b_loop_two by lia.
    cbn. by rewrite <- ?app_assoc.
  - cbn [b2a_base64].
    rewrite a2b_loop_two by apply to_N_lt.
    rewrite a2b_loop_third by lia.
    cbn. by rewrite <- ?app_assoc.
  - cbn [b2a_base64].
    rewrite a2b_loop_two by apply to_N_lt.
    rewrite a2b_loop_third by apply to_N_lt.
    rewrite a2b_loop_data by (apply sextet4_lt, to_N_lt).
    rewrite third_byte, byte_of_N_to_N by apply to_N_lt.
    rewrite IH. cbn. by rewrite <- ?app_assoc.
Qed.

(** Decoding what the encoder wrote gives the bytes back. *)
Lemma a2b_b2a bs : a2b_base64 (b2a_base64 bs) = inr bs.
Proof. unfold a2b_base64. by rewrite a2b_loop_b2a. Qed.

(** The encoder writes ASCII only. *)
Lemma b2a_all_ascii bs : all_ascii (b2a_base64 bs) = true.
Proof.
  induction bs as [|b1|b1 b2|b1 b2 b3 rest IH] using list_ind3;
    cbn [b2a_base64 all_ascii]; rewrite ?table_b2a_ascii, ?IH; reflexivity.
Qed.

End Base64Facts.

(* ===================================================================== *)
(** * The steps of the script, one by one *)
(* ===================================================================== *)

Ltac unfold_py :=
  unfold mbind, mret, raise, sys_exit, try_except, print_err, print_out,
    emit, check_fault in *.

(** Close a goal [run of a step = (r, w') → facts about r and w'] once the
    step has been reduced to its result. *)
Ltac closed_run :=
  unfold raise, mret; intros [= <- <-]; cbn; repeat split; try done;
  by intros ? [= <-].

(** Two states are the same when their four parts are. *)
Ltac same_world :=
  unfold logged, wrote, refiled, printed, raise, mret; cbn;
  rewrite ?app_nil_r, <- ?app_assoc; reflexivity.

Lemma left_behind_lookup_ne env path data files k :
  k ≠ resolve env path → left_behind env path data files !! k = files !! k.
Proof.
  intros Hk. unfold left_behind.
  destruct (write_residue env path); [by rewrite lookup_insert_ne|done].
Qed.

Lemma failed_write_lookup_ne env path data files k :
  k ≠ resolve env path → failed_write env path data files !! k = files !! k.
Proof.
  intros Hk. unfold failed_write.
  destruct (write_fault env path) as [[cls msg]|]; [|done].
  destruct (except_OSError _); [by apply left_behind_lookup_ne|done].
Qed.

(** What a failed attempt at the primary path leaves is at that path. *)
Lemma primary_residue_lookup_ne env source_path factor data files k :
  k ≠ resolve env (primary_path env source_path factor) →
  primary_residue env source_path factor data files !! k = files !! k.
Proof.
  intros Hk. unfold primary_residue.
  destruct (access_W_OK env _); [by apply failed_write_lookup_ne|done].
Qed.

Lemma failed_write_none env path data files :
  write_fault env path = None → failed_write env path data files = files.
Proof. unfold failed_write. by intros ->. Qed.

Lemma failed_write_other env path data files cls msg :
  write_fault env path = Some (cls, msg) →
  except_OSError (Error cls msg) = false →
  failed_write env path data files = files.
Proof. unfold failed_write. by intros -> ->. Qed.

(** A primary path that takes the data has nothing left at it by a failed
    attempt, and neither has one at which the attempt fails before a file is
    made. *)
Lemma primary_residue_none env source_path factor data files :
  write_fault env (primary_path env source_path factor) = None →
  primary_residue env source_path factor data files = files.
Proof.
  intros Hwf. unfold primary_residue.
  destruct (access_W_OK env _); [by apply failed_write_none|done].
Qed.

(** Saving the same data again over what a run has left changes nothing. *)
Lemma primary_residue_again env source_path factor data files k :
  <[k := data]>
    (primary_residue env source_path factor data
       (<[k := data]> (primary_residue env source_path factor data files)))
  = <[k := data]> (primary_residue env source_path factor data files).
Proof.
  unfold primary_residue.
  destruct (access_W_OK env _); [|apply insert_insert_eq].
  unfold failed_write.
  destruct (write_fault env _) as [[cls msg]|]; [|apply insert_insert_eq].
  destruct (except_OSError _); [|apply insert_insert_eq].
  unfold left_behind.
  destruct (write_residue env _) as [n|]; [|apply insert_insert_eq].
  apply map_eq. intros i.
  destruct (decide (k = i)) as [->|Hk]; [by rewrite !lookup_insert_eq|].
  rewrite !(lookup_insert_ne _ k i) by exact Hk.
  match goal with
  | |- <[?p := _]> _ !! _ = _ =>
      destruct (decide (p = i)) as [->|Hp];
        [by rewrite !lookup_insert_eq|];
        by repeat (rewrite lookup_insert_ne by done)
  end.
Qed.


Section Steps.
Context (cfg : Config) (env : Env).

(** Steps 1 and 2 *)
Lemma connect_eq w :
  connect cfg env w =
  match init_fault env (PROJECT_ID cfg) (LOCATION cfg) with
  | Some (cls, msg) =>
      (Exc (SystemExit 1),
       logged [EvInit (PROJECT_ID cfg) (LOCATION cfg)]
         ["Error initializing Vertex AI. Did you set GOOGLE_APPLICATION_CREDENTIALS?";
          "Details: " +:+ msg] w)
  | None =>
      match model_fault env (model_resource cfg) with
      | Some (cls, msg) =>
          (Exc (Error cls msg),
           logged [EvInit (PROJECT_ID cfg) (LOCATION cfg);
                   EvModel (model_resource cfg)] [] w)
      | None =>
          (Val tt,
           logged [EvInit (PROJECT_ID cfg) (LOCATION cfg);
                   EvModel (model_resource cfg)] [] w)
      end
  end.
Proof.
  unfold connect, aiplatform_init, aiplatform_Model. unfold_py.
  destruct (init_fault env _ _) as [[cls msg]|]; cbn; [same_world|].
  destruct (model_fault env _) as [[cls msg]|]; cbn; same_world.
Qed.

(** Step 3 *)
Lemma read_and_encode_eq source_path w :
  read_and_encode env source_path w =
  match read_fault env source_path with
  | Some (cls, msg) =>
      (Exc (SystemExit 1),
       logged [EvOpenRead source_path]
         [if except_FileNotFoundError (Error cls msg)
          then "Error: Source file not found at " +:+ source_path
          else "Error reading source file: " +:+ msg] w)
  | None =>
      match fs w !! resolve env source_path with
      | None =>
          (Exc (SystemExit 1),
           logged [EvOpenRead source_path]
             ["Error: Source file not found at " +:+ source_path] w)
      | Some image_bytes =>
          (Val (b64encode image_bytes), logged [EvOpenRead source_path] [] w)
      end
  end.
Proof.
  unfold read_and_encode, read_file. unfold_py. cbn.
  destruct (read_fault env source_path) as [[cls msg]|]; cbn.
  - destruct cls; cbn; same_world.
  - destruct (fs w !! resolve env source_path) as [image_bytes|]; cbn; same_world.
Qed.

(** Steps 5 and 6: whatever happens, one request went out, no file and no
    line of standard output changed, and a failure is [sys.exit(1)]. *)
Lemma call_and_decode_frame source_path factor enc w r w' :
  call_and_decode env source_path factor enc w = (r, w') →
  fs w' = fs w ∧ stdout w' = stdout w ∧
  trace w' = trace w ++ [EvPredict [instance enc] (parameters factor)] ∧
  (∀ e, r = Exc e → e = SystemExit 1).
Proof.
  unfold call_and_decode, model_predict, py_first, py_contains, py_getitem, b64decode.
  unfold_py. cbn.
  destruct (predict env _ _) as [[cls msg]|response]; cbn; [closed_run|].
  destruct (predictions response) as [|first rest]; cbn; [closed_run|].
  destruct first as [| | |s|l|d]; cbn; try closed_run.
  - destruct (str_contains _ s); cbn; closed_run.
  - destruct (existsb _ l); cbn; closed_run.
  - destruct (d !! "bytesBase64Encoded") as [v|]; cbn; [|closed_run].
    destruct v as [| | |payload|l'|d']; cbn; try closed_run.
    destruct (Base64.all_ascii payload); cbn; [|closed_run].
    destruct (Base64.a2b_base64 payload) as [[n|]|data]; cbn; closed_run.
Qed.

(** Steps 5 and 6 deliver bytes only from a first prediction that is an
    object with the field, holding a string that decodes. *)
Lemma call_and_decode_inv source_path factor enc w data w' :
  call_and_decode env source_path factor enc w = (Val data, w') →
  ∃ response d rest payload,
    predict env [instance enc] (parameters factor) = inr response ∧
    predictions response = PyDict d :: rest ∧
    d !! "bytesBase64Encoded" = Some (PyStr payload) ∧
    Base64.all_ascii payload = true ∧
    Base64.a2b_base64 payload = inr data ∧
    w' = logged [EvPredict [instance enc] (parameters factor)]
           [sending source_path factor] w.
Proof.
  unfold call_and_decode, model_predict, py_first, py_contains, py_getitem, b64decode.
  unfold_py. cbn.
  destruct (predict env _ _) as [[cls msg]|response]; cbn; [done|].
  destruct (predictions response) as [|first rest] eqn:Hp; cbn; [done|].
  destruct first as [| | |s|l|d]; cbn; try done.
  - destruct (str_contains _ s); cbn; done.
  - destruct (existsb _ l); cbn; done.
  - destruct (d !! "bytesBase64Encoded") as [v|] eqn:Hd; cbn; [|done].
    destruct v as [| | |payload|l'|d']; cbn; try done.
    destruct (Base64.all_ascii payload) eqn:Ha; cbn; [|done].
    destruct (Base64.a2b_base64 payload) as [[n|]|data'] eqn:Hdec; cbn; try done.
    intros [= <- <-]. by exists response, d, rest, payload.
Qed.

(** The service raises. *)
Lemma call_and_decode_raises source_path factor enc w cls msg :
  predict env [instance enc] (parameters factor) = inl (cls, msg) →
  call_and_decode env source_path factor enc w =
  (Exc (SystemExit 1),
   logged [EvPredict [instance enc] (parameters factor)]
     [sending source_path factor; "Error during API call: " +:+ msg;
      permissions_hint] w).
Proof.
  intros Hp. unfold call_and_decode, model_predict. unfold_py. cbn.
  rewrite Hp. cbn. same_world.
Qed.

(** The service answers without a prediction: [predictions[0]] raises
    [IndexError] inside the [try], and the general handler reports it. *)
Lemma call_and_decode_empty source_path factor enc w response :
  predict env [instance enc] (parameters factor) = inr response →
  predictions response = [] →
  call_and_decode env source_path factor enc w =
  (Exc (SystemExit 1),
   logged [EvPredict [instance enc] (parameters factor)]
     [sending source_path factor;
      "Error during API call: list index out of range";
      permissions_hint] w).
Proof.
  intros Hp Hnil. unfold call_and_decode, model_predict, py_first. unfold_py. cbn.
  rewrite Hp. cbn. rewrite Hnil. cbn. same_world.
Qed.

(** The first prediction does not hold the field: the script prints the
    response and leaves; [SystemExit] passes the general handler. *)
Lemma call_and_decode_missing source_path factor enc w response first rest :
  predict env [instance enc] (parameters factor) = inr response →
  predictions response = first :: rest →
  py_contains "bytesBase64Encoded" first = mret false →
  call_and_decode env source_path factor enc w =
  (Exc (SystemExit 1),
   logged [EvPredict [instance enc] (parameters factor)]
     [sending source_path factor;
      "Error: API response did not contain an image. "
      +:+ str_Prediction env response] w).
Proof.
  intros Hp Hcons Hin. unfold call_and_decode, model_predict, py_first.
  unfold_py. cbn. rewrite Hp. cbn. rewrite Hcons. cbn. rewrite Hin. cbn.
  same_world.
Qed.

(** The first prediction holds a string that decodes. *)
Lemma call_and_decode_ok source_path factor enc w response d rest payload data :
  predict env [instance enc] (parameters factor) = inr response →
  predictions response = PyDict d :: rest →
  d !! "bytesBase64Encoded" = Some (PyStr payload) →
  Base64.all_ascii payload = true →
  Base64.a2b_base64 payload = inr data →
  call_and_decode env source_path factor enc w =
  (Val data,
   logged [EvPredict [instance enc] (parameters factor)]
     [sending source_path factor] w).
Proof.
  intros Hp Hcons Hd Ha Hdec.
  unfold call_and_decode, model_predict, py_first, py_contains, py_getitem, b64decode.
  unfold_py. cbn.
  rewrite Hp. cbn. rewrite Hcons. cbn. rewrite Hd. cbn.
  rewrite Ha, Hdec. same_world.
Qed.

(** Of the predictions only the first is looked at: two answers with the
    same first prediction (and the same printed form) are treated alike. *)
Lemma call_and_decode_first_only env' source_path factor enc w r r' :
  predict env [instance enc] (parameters factor) = inr r →
  predict env' [instance enc] (parameters factor) = inr r' →
  head (predictions r) = head (predictions r') →
  str_Prediction env r = str_Prediction env' r' →
  call_and_decode env source_path factor enc w =
  call_and_decode env' source_path factor enc w.
Proof.
  intros Hp Hp' Hhead Hstr.
  unfold call_and_decode, model_predict, py_first. unfold_py. cbn.
  rewrite Hp, Hp', Hstr. cbn.
  destruct (predictions r) as [|first rest], (predictions r') as [|first' rest'];
    cbn in *; try done.
  by injection Hhead as ->.
Qed.

(** Step 8, all the ways it can go.  [paths] are the files that the step
    tried to open for writing, in order; [rest] is what the primary path
    has become when the data is not there. *)
Lemma save_cases source_path factor data w :
  ∃ paths,
    let evs := EvAccess (target_dir env source_path) :: map EvOpenWrite paths in
    let rest := primary_residue env source_path factor data (fs w) in
    (∃ output_path warning,
       saved_at env source_path factor output_path warning ∧
       save env source_path factor data w =
         (Val output_path,
          refiled (<[resolve env output_path := data]> rest) (logged evs warning w)))
    ∨ (∃ cls msg,
         not_writable env source_path factor ∧
         write_fault env (fallback_path env source_path factor) = Some (cls, msg) ∧
         save env source_path factor data w =
           (Exc (SystemExit 1),
            refiled (failed_write env (fallback_path env source_path factor) data rest)
              (logged evs
                 (fallback_warning env source_path factor ++
                  ["Error: Could not write to current working directory either: "
                   +:+ msg])
                 w)))
    ∨ (∃ cls msg,
         access_W_OK env (target_dir env source_path) = true ∧
         write_fault env (primary_path env source_path factor) = Some (cls, msg) ∧
         except_OSError (Error cls msg) = false ∧
         save env source_path factor data w = (Exc (Error cls msg), logged evs [] w)).
Proof.
  unfold saved_at, save, os_access, write_file, not_writable, primary_residue.
  unfold_py.
  set (primary := primary_path env source_path factor).
  set (fallback := fallback_path env source_path factor). cbn.
  destruct (access_W_OK env (target_dir env source_path)) eqn:Hacc; cbn.
  - destruct (write_fault env primary) as [[cls msg]|] eqn:Hw1; cbn.
    + destruct (except_OSError (Error cls msg)) eqn:Hos.
      * assert (match cls with
                | FileNotFoundError | PermissionError | OSError => true
                | _ => false
                end = true) as -> by exact Hos.
        cbn.
        destruct (write_fault env fallback) as [[cls2 msg2]|] eqn:Hw2; cbn.
        -- exists [primary; fallback]. right. left. exists cls2, msg2.
           split; [right; eauto|]. split; [done|]. same_world.
        -- exists [primary; fallback]. left.
           exists fallback, (fallback_warning env source_path factor).
           split; [|same_world]. right. repeat split; try done. right; eauto.
      * assert (match cls with
                | FileNotFoundError | PermissionError | OSError => true
                | _ => false
                end = false) as -> by exact Hos.
        exists [primary]. right. right. exists cls, msg.
        repeat split; try done.
        rewrite (failed_write_other env primary data (fs w) cls msg) by done.
        same_world.
    + exists [primary]. left. exists primary, [].
      split; [|rewrite (failed_write_none env primary) by done; same_world].
      left. repeat split; done.
  - destruct (write_fault env fallback) as [[cls2 msg2]|] eqn:Hw2; cbn.
    + exists [fallback]. right. left. exists cls2, msg2.
      split; [by left|]. split; [done|]. same_world.
    + exists [fallback]. left.
      exists fallback, (fallback_warning env source_path factor).
      split; [|same_world]. right. repeat split; try done. by left.
Qed.

(** The last step on a file that holds [filedata]. *)
Lemma report_eq source_path output_path data filedata w :
  fs w !! resolve env output_path = Some filedata →
  report env source_path output_path data w =
  match image_size env data with
  | inl (cls, msg) => (Exc (Error cls msg), logged [EvGetsize output_path] [] w)
  | inr (width, height) =>
      (Val tt,
       printed (report_lines env source_path output_path
                  (N.of_nat (length filedata)) width height)
         (logged [EvGetsize output_path] [] w))
  end.
Proof.
  intros Hfile. unfold report, os_path_getsize, Image_open_size. unfold_py. cbn.
  rewrite Hfile.
  destruct (image_size env data) as [[cls msg]|[width height]]; cbn; same_world.
Qed.

End Steps.

(* ===================================================================== *)
(** * The script as a whole *)
(* ===================================================================== *)

Lemma run_val script w w' :
  script w = (Val tt, w') → run script w = {| exit_status := 0; final := w' |}.
Proof. unfold run. by intros ->. Qed.

Lemma run_exit script w w' code :
  script w = (Exc (SystemExit code), w') →
  run script w = {| exit_status := code; final := w' |}.
Proof. unfold run. by intros ->. Qed.

Lemma fs_logged evs errs w : fs (logged evs errs w) = fs w.
Proof. reflexivity. Qed.

Lemma filter_open_write (keep : event → bool) paths :
  (∀ p, keep (EvOpenWrite p) = false) →
  List.filter keep (map EvOpenWrite paths) = [].
Proof.
  intros Hk. induction paths as [|p paths IH]; cbn; [done|]. by rewrite Hk.
Qed.

Section Whole.
Context (cfg : Config) (env : Env) (source_path factor : string).

Lemma upscale_image_split w :
  upscale_image cfg env source_path factor w =
  (upscaled_bytes <- obtain cfg env source_path factor ;;
   finish env source_path factor upscaled_bytes) w.
Proof.
  unfold upscale_image, obtain, finish, mbind.
  destruct (connect cfg env w) as [[[]|e] w1]; [|done].
  destruct (read_and_encode env source_path w1) as [[enc|e] w2]; [|done].
  by destruct (call_and_decode env source_path factor enc w2) as [[data|e] w3].
Qed.

(** With a connection and a readable source, the script gets as far as the
    request. *)
Lemma obtain_reaches w image_bytes :
  connects cfg env →
  readable env (fs w) source_path image_bytes →
  obtain cfg env source_path factor w =
  call_and_decode env source_path factor (b64encode image_bytes)
    (logged [EvInit (PROJECT_ID cfg) (LOCATION cfg);
             EvModel (model_resource cfg);
             EvOpenRead source_path] [] w).
Proof.
  intros [Hinit Hmodel] [Hfile Hread]. unfold obtain, mbind.
  rewrite connect_eq, Hinit, Hmodel, read_and_encode_eq. cbn.
  rewrite Hread, Hfile. f_equal. same_world.
Qed.

(** The bytes come from a run in which every step before went through. *)
Lemma obtain_inv w data w1 :
  obtain cfg env source_path factor w = (Val data, w1) →
  ∃ image_bytes response d rest payload,
    connects cfg env ∧
    readable env (fs w) source_path image_bytes ∧
    predict env [instance (b64encode image_bytes)] (parameters factor) = inr response ∧
    predictions response = PyDict d :: rest ∧
    d !! "bytesBase64Encoded" = Some (PyStr payload) ∧
    Base64.all_ascii payload = true ∧
    Base64.a2b_base64 payload = inr data ∧
    w1 = logged [EvInit (PROJECT_ID cfg) (LOCATION cfg);
                 EvModel (model_resource cfg);
                 EvOpenRead source_path;
                 EvPredict [instance (b64encode image_bytes)] (parameters factor)]
           [sending source_path factor] w.
Proof.
  unfold obtain, mbind. rewrite connect_eq.
  destruct (init_fault env _ _) as [[cls msg]|] eqn:Hinit; [done|].
  destruct (model_fault env _) as [[cls msg]|] eqn:Hmodel; [done|].
  rewrite read_and_encode_eq. cbn.
  destruct (read_fault env source_path) as [[cls msg]|] eqn:Hread; [done|].
  destruct (fs w !! resolve env source_path) as [image_bytes|] eqn:Hfile; [|done].
  intros Hcall. apply call_and_decode_inv in Hcall
    as (response & d & rest & payload & Hp & Hcons & Hd & Ha & Hdec & ->).
  exists image_bytes, response, d, rest, payload.
  repeat split; try done. same_world.
Qed.

(** When no bytes come, the script has left with status 1 or with an
    exception of the library, and no file and no line of standard output has
    changed. *)
Lemma obtain_exc w e w1 :
  obtain cfg env source_path factor w = (Exc e, w1) →
  (e = SystemExit 1 ∨ ∃ cls msg, e = Error cls msg) ∧
  fs w1 = fs w ∧ stdout w1 = stdout w.
Proof.
  unfold obtain, mbind. rewrite connect_eq.
  destruct (init_fault env _ _) as [[cls msg]|]; [intros [= <- <-]; eauto|].
  destruct (model_fault env _) as [[cls msg]|]; [intros [= <- <-]; eauto 6|].
  rewrite read_and_encode_eq. cbn.
  destruct (read_fault env source_path) as [[cls msg]|]; [intros [= <- <-]; eauto|].
  destruct (fs w !! resolve env source_path) as [image_bytes|];
    [|intros [= <- <-]; eauto].
  intros Hcall. apply call_and_decode_frame in Hcall as (Hfs & Hout & _ & Hexc).
  split; [left; by apply Hexc|]. by rewrite Hfs, Hout.
Qed.

(** Steps 7 to 9, all the ways they can go. *)
Lemma finish_cases data w :
  ∃ paths,
    let evs := EvAccess (target_dir env source_path) :: map EvOpenWrite paths in
    let rest := primary_residue env source_path factor data (fs w) in
    (∃ output_path warning,
       saved_at env source_path factor output_path warning ∧
       match image_size env data with
       | inr (width, height) =>
           finish env source_path factor data w =
             (Val tt,
              printed (report_lines env source_path output_path
                         (N.of_nat (length data)) width height)
                (refiled (<[resolve env output_path := data]> rest)
                   (logged (evs ++ [EvGetsize output_path]) warning w)))
       | inl (cls, msg) =>
           finish env source_path factor data w =
             (Exc (Error cls msg),
              refiled (<[resolve env output_path := data]> rest)
                (logged (evs ++ [EvGetsize output_path]) warning w))
       end)
    ∨ (∃ cls msg,
         not_writable env source_path factor ∧
         write_fault env (fallback_path env source_path factor) = Some (cls, msg) ∧
         finish env source_path factor data w =
           (Exc (SystemExit 1),
            refiled (failed_write env (fallback_path env source_path factor) data rest)
              (logged evs
                 (fallback_warning env source_path factor ++
                  ["Error: Could not write to current working directory either: "
                   +:+ msg])
                 w)))
    ∨ (∃ cls msg,
         access_W_OK env (target_dir env source_path) = true ∧
         write_fault env (primary_path env source_path factor) = Some (cls, msg) ∧
         except_OSError (Error cls msg) = false ∧
         finish env source_path factor data w = (Exc (Error cls msg), logged evs [] w)).
Proof.
  destruct (save_cases env source_path factor data w)
    as (paths & [(out & warning & Hat & Hsave)
                |[(cls & msg & Hnw & Hwf & Hsave)
                 |(cls & msg & Hacc & Hwf & Hos & Hsave)]]);
    exists paths; cbn zeta in *; unfold finish, mbind; rewrite Hsave.
  - left. exists out, warning. split; [done|].
    rewrite (report_eq env source_path out data data)
      by (cbn; apply lookup_insert_eq).
    destruct (image_size env data) as [[cls msg]|[width height]]; f_equal; same_world.
  - right. left. by exists cls, msg.
  - right. right. by exists cls, msg.
Qed.

(** Any way the script ends without finishing is with a status other than
    0. *)
Lemma upscale_image_exc w e w' :
  upscale_image cfg env source_path factor w = (Exc e, w') →
  e = SystemExit 1 ∨ ∃ cls msg, e = Error cls msg.
Proof.
  rewrite upscale_image_split. unfold mbind.
  destruct (obtain cfg env source_path factor w) as [[data|e1] w1] eqn:Hob.
  - destruct (finish_cases data w1)
      as (paths & [(out & warning & Hat & Hfin)
                  |[(cls & msg & _ & _ & Hfin)|(cls & msg & _ & _ & _ & Hfin)]]).
    + destruct (image_size env data) as [[cls msg]|[width height]];
        rewrite Hfin; intros [= <- <-]; eauto.
    + rewrite Hfin. intros [= <- <-]; eauto.
    + rewrite Hfin. intros [= <- <-]; eauto.
  - intros [= <- <-]. by apply obtain_exc in Hob as [? _].
Qed.

(** Status 0 means that the script ran to its end. *)
Lemma success_runs_through w :
  exit_status (run (upscale_image cfg env source_path factor) w) = 0%Z →
  ∃ w', upscale_image cfg env source_path factor w = (Val tt, w') ∧
        final (run (upscale_image cfg env source_path factor) w) = w'.
Proof.
  unfold run.
  destruct (upscale_image cfg env source_path factor w) as [[[]|e] w'] eqn:Hrun.
  - eauto.
  - apply upscale_image_exc in Hrun as [->|(cls & msg & ->)]; cbn; done.
Qed.

End Whole.

(** What a run leaves is what the script leaves; the interpreter only adds
    a traceback to the error stream. *)
Lemma run_fs script w : fs (final (run script w)) = fs (snd (script w)).
Proof. unfold run. by destruct (script w) as [[?|[]] ?]. Qed.

Lemma run_stdout script w : stdout (final (run script w)) = stdout (snd (script w)).
Proof. unfold run. by destruct (script w) as [[?|[]] ?]. Qed.

Lemma run_trace script w : trace (final (run script w)) = trace (snd (script w)).
Proof. unfold run. by destruct (script w) as [[?|[]] ?]. Qed.

(** [b64decode] undoes [b64encode]. *)
Lemma b64decode_b64encode data w :
  b64decode (PyStr (b64encode data)) w = (Val data, w).
Proof.
  unfold b64decode, b64encode.
  by rewrite Base64Facts.b2a_all_ascii, Base64Facts.a2b_b2a.
Qed.

Lemma b64decode_payload payload data w :
  Base64.all_ascii payload = true →
  Base64.a2b_base64 payload = inr data →
  b64decode (PyStr payload) w = (Val data, w).
Proof. intros Ha Hdec. unfold b64decode. by rewrite Ha, Hdec. Qed.

(* ===================================================================== *)
(** * The claims of the specification *)
(* ===================================================================== *)

(** C1 as the specification states it fails on a disk that is full when the
    file next to the source is written: the attempt has created that file and
    left it empty, the data goes to the working directory, and the run ends
    with status 0 and two files more than before, not one. *)
Lemma C1_counterexample :
  let o := run (upscale_image sample_cfg fulldisk_env "pics/cat.png" "x2")
             (start sample_files) in
  exit_status o = 0%Z ∧
  fs (final o) !! "pics/cat_upscaled_x2.png" = Some [] ∧
  fs (final o) !! "/home/user/cat_upscaled_x2.png" = Some [x4d; x61; x6e] ∧
  ¬ ∃ output_path upscaled_bytes,
      fs (final o) = <[output_path := upscaled_bytes]> sample_files.
Proof.
  cbn zeta.
  assert (fs (final (run (upscale_image sample_cfg fulldisk_env "pics/cat.png" "x2")
                       (start sample_files))) !! "pics/cat_upscaled_x2.png"
          = Some []) as Hnear by (vm_compute; reflexivity).
  assert (fs (final (run (upscale_image sample_cfg fulldisk_env "pics/cat.png" "x2")
                       (start sample_files))) !! "/home/user/cat_upscaled_x2.png"
          = Some [x4d; x61; x6e]) as Hcwd by (vm_compute; reflexivity).
  split; [vm_compute; reflexivity|]. split; [exact Hnear|]. split; [exact Hcwd|].
  intros (out & bytes & Hfs). rewrite Hfs in Hnear, Hcwd.
  destruct (decide (out = "pics/cat_upscaled_x2.png")) as [Heq|Hne].
  - assert (out ≠ "/home/user/cat_upscaled_x2.png") as Hne by (by rewrite Heq).
    clear Hnear Heq. rewrite lookup_insert_ne in Hcwd by exact Hne.
    vm_compute in Hcwd. discriminate Hcwd.
  - clear Hcwd. rewrite lookup_insert_ne in Hnear by exact Hne.
    vm_compute in Hnear. discriminate Hnear.
Qed.

(** C1, amended.  A run that ends with status 0 has put the base64 decoding
    of the field [bytesBase64Encoded] of the first prediction, byte for
    byte, into the file at its output path, which is the primary or the
    fallback path.  The files after the run are the files before it with
    that file set to the decoded bytes, on top of what a failed attempt at
    the primary path has left there; every file that is at neither of the
    two paths is as it was.  The pair used on the request side is a round
    trip: decoding an encoding gives the bytes back.  This holds for every
    factor, [x2] and [x4] among them. *)
Theorem C1_output_is_decoded_payload cfg env source_path factor files :
  (∀ data w, b64decode (PyStr (b64encode data)) w = (Val data, w)) ∧
  (exit_status (run (upscale_image cfg env source_path factor) (start files)) = 0%Z →
   ∃ image_bytes response d rest payload upscaled_bytes output_path,
     files !! resolve env source_path = Some image_bytes ∧
     predict env [instance (b64encode image_bytes)] (parameters factor) = inr response ∧
     predictions response = PyDict d :: rest ∧
     d !! "bytesBase64Encoded" = Some (PyStr payload) ∧
     (∀ w, b64decode (PyStr payload) w = (Val upscaled_bytes, w)) ∧
     (output_path = primary_path env source_path factor ∨
      output_path = fallback_path env source_path factor) ∧
     fs (final (run (upscale_image cfg env source_path factor) (start files)))
       !! resolve env output_path = Some upscaled_bytes ∧
     fs (final (run (upscale_image cfg env source_path factor) (start files)))
       = <[resolve env output_path := upscaled_bytes]>
           (primary_residue env source_path factor upscaled_bytes files) ∧
     (∀ k, k ≠ resolve env (primary_path env source_path factor) →
           k ≠ resolve env (fallback_path env source_path factor) →
           fs (final (run (upscale_image cfg env source_path factor) (start files)))
             !! k = files !! k)).
Proof.
  split; [apply b64decode_b64encode|].
  intros Hok. apply success_runs_through in Hok as (w' & Hrun & ->).
  rewrite upscale_image_split in Hrun. unfold mbind in Hrun.
  destruct (obtain cfg env source_path factor (start files))
    as [[data|e] w1] eqn:Hob; [|done].
  apply obtain_inv in Hob
    as (image_bytes & response & d & rest & payload
        & _ & [Hfile _] & Hp & Hcons & Hd & Ha & Hdec & ->).
  destruct (finish_cases env source_path factor data
              (logged [EvInit (PROJECT_ID cfg) (LOCATION cfg);
                       EvModel (model_resource cfg);
                       EvOpenRead source_path;
                       EvPredict [instance (b64encode image_bytes)] (parameters factor)]
                 [sending source_path factor] (start files)))
    as (paths & [(out & warning & Hat & Hfin)
                |[(cls & msg & _ & _ & Hfin)|(cls & msg & _ & _ & _ & Hfin)]]);
    [|congruence..].
  destruct (image_size env data) as [[cls msg]|[width height]]; [congruence|].
  rewrite Hfin in Hrun. injection Hrun as <-.
  assert (out = primary_path env source_path factor ∨
          out = fallback_path env source_path factor) as Hout
    by (destruct Hat as [(-> & _)|(-> & _)]; auto).
  exists image_bytes, response, d, rest, payload, data, out.
  split; [exact Hfile|]. split; [exact Hp|]. split; [exact Hcons|].
  split; [exact Hd|]. split; [intros w; by apply b64decode_payload|].
  split; [exact Hout|]. cbn [fs printed refiled logged start].
  split; [apply lookup_insert_eq|]. split; [reflexivity|].
  intros k Hk1 Hk2.
  rewrite lookup_insert_ne by (destruct Hout as [->| ->]; congruence).
  by apply primary_residue_lookup_ne.
Qed.

(** C1 on the sample machine: the run succeeds and leaves the three bytes
    of the payload next to the source. *)
Lemma C1_witness :
  exit_status (run (upscale_image sample_cfg good_env "pics/cat.png" "x2")
                 (start sample_files)) = 0%Z ∧
  ∃ output_path upscaled_bytes,
    fs (final (run (upscale_image sample_cfg good_env "pics/cat.png" "x2")
                 (start sample_files))) !! resolve good_env output_path
    = Some upscaled_bytes.
Proof.
  split; [vm_compute; reflexivity|].
  destruct (proj2 (C1_output_is_decoded_payload sample_cfg good_env
                     "pics/cat.png" "x2" sample_files))
    as (_ & _ & _ & _ & _ & data & out & _ & _ & _ & _ & _ & _ & Hat & _).
  - vm_compute; reflexivity.
  - exists out, data. exact Hat.
Defined.

Lemma filter_save_steps (keep : event → bool) before dir paths rest :
  keep (EvAccess dir) = false →
  (∀ p, keep (EvOpenWrite p) = false) →
  List.filter keep rest = [] →
  List.filter keep (before ++ (EvAccess dir :: map EvOpenWrite paths) ++ rest)
  = List.filter keep before.
Proof.
  intros Hacc Hwr Hrest.
  rewrite List.filter_app. cbn. rewrite Hacc, List.filter_app.
  by rewrite (filter_open_write keep paths Hwr), Hrest, app_nil_r.
Qed.

(** Steps 7 to 9 send nothing to the service and read no file. *)
Lemma finish_quiet env source_path factor data w (keep : event → bool) :
  (∀ p, keep (EvAccess p) = false) →
  (∀ p, keep (EvOpenWrite p) = false) →
  (∀ p, keep (EvGetsize p) = false) →
  List.filter keep (trace (snd (finish env source_path factor data w)))
  = List.filter keep (trace w).
Proof.
  intros Hacc Hwr Hgs.
  destruct (finish_cases env source_path factor data w)
    as (paths & [(out & warning & _ & Hfin)
                |[(cls & msg & _ & _ & Hfin)|(cls & msg & _ & _ & _ & Hfin)]]).
  - destruct (image_size env data) as [[cls msg]|[width height]];
      rewrite Hfin; unfold printed, refiled, logged; cbn [snd trace];
      apply filter_save_steps; cbn; rewrite ?Hgs; done.
  - rewrite Hfin. unfold refiled, logged; cbn [snd trace].
    rewrite <- (app_nil_r (_ :: _)). by apply filter_save_steps.
  - rewrite Hfin. unfold refiled, logged; cbn [snd trace].
    rewrite <- (app_nil_r (_ :: _)). by apply filter_save_steps.
Qed.

(** Steps 1 to 6 send at most one request. *)
Lemma obtain_predicts_once cfg env source_path factor w :
  (length (List.filter is_predict
             (trace (snd (obtain cfg env source_path factor w))))
   ≤ length (List.filter is_predict (trace w)) + 1)%nat.
Proof.
  unfold obtain, mbind. rewrite connect_eq.
  destruct (init_fault env _ _) as [[cls msg]|];
    [cbn; rewrite List.filter_app, length_app; cbn; lia|].
  destruct (model_fault env _) as [[cls msg]|];
    [cbn; rewrite List.filter_app, length_app; cbn; lia|].
  rewrite read_and_encode_eq, fs_logged.
  destruct (read_fault env source_path) as [[cls msg]|];
    [cbn; rewrite !List.filter_app, !length_app; cbn; lia|].
  destruct (fs w !! resolve env source_path) as [image_bytes|];
    [|cbn; rewrite !List.filter_app, !length_app; cbn; lia].
  match goal with
  | |- context [call_and_decode ?e ?s ?f ?enc ?w0] =>
      destruct (call_and_decode e s f enc w0) as [r w1] eqn:Hcall
  end.
  apply call_and_decode_frame in Hcall as (_ & _ & Htr & _).
  cbn [snd]. rewrite Htr. cbn. rewrite !List.filter_app, !length_app. cbn. lia.
Qed.

(** C2.  When the connection is made and the source file holds the bytes
    [B], the request is the one instance [{image: {bytesBase64Encoded:
    base64(B)}}] with the parameters [{mode: "upscale", upscaleConfig:
    {upscaleFactor: f}}], and it is the only request of the run; no run
    sends more than one request.  This holds for every factor [f], [x2]
    and [x4] among them. *)
Theorem C2_request_shape cfg env source_path factor files :
  (length (List.filter is_predict
             (trace (final (run (upscale_image cfg env source_path factor)
                              (start files))))) ≤ 1)%nat
  ∧ ∀ image_bytes,
      connects cfg env →
      readable env files source_path image_bytes →
      List.filter is_predict
        (trace (final (run (upscale_image cfg env source_path factor) (start files))))
      = [ EvPredict
            [ PyDict {[ "image" :=
                PyDict {[ "bytesBase64Encoded" := PyStr (b64encode image_bytes) ]} ]} ]
            (PyDict {[ "mode" := PyStr "upscale";
                       "upscaleConfig" := PyDict {[ "upscaleFactor" := PyStr factor ]} ]}) ].
Proof.
  split.
  - rewrite run_trace, upscale_image_split. unfold mbind.
    pose proof (obtain_predicts_once cfg env source_path factor (start files))
      as Hone.
    destruct (obtain cfg env source_path factor (start files))
      as [[data|e1] w1]; cbn in Hone |- *; [|lia].
    rewrite finish_quiet by done. lia.
  - intros image_bytes Hconn Hread.
    rewrite run_trace, upscale_image_split. unfold mbind.
    rewrite (obtain_reaches cfg env source_path factor (start files) image_bytes)
      by done.
    match goal with
    | |- context [call_and_decode ?e ?s ?f ?enc ?w0] =>
        destruct (call_and_decode e s f enc w0) as [[data|e1] w1] eqn:Hcall
    end;
      apply call_and_decode_frame in Hcall as (_ & _ & Htr & _).
    + rewrite finish_quiet by done. by rewrite Htr.
    + cbn. by rewrite Htr.
Qed.

(** C2 on the sample machine. *)
Lemma C2_witness :
  List.filter is_predict
    (trace (final (run (upscale_image sample_cfg good_env "pics/cat.png" "x4")
                     (start sample_files))))
  = [ EvPredict
        [ PyDict {[ "image" :=
                      PyDict {[ "bytesBase64Encoded" := PyStr (b64encode sample_picture) ]} ]} ]
        (PyDict {[ "mode" := PyStr "upscale";
                   "upscaleConfig" := PyDict {[ "upscaleFactor" := PyStr "x4" ]} ]}) ].
Proof.
  apply (proj2 (C2_request_shape sample_cfg good_env "pics/cat.png" "x4"
                  sample_files) sample_picture).
  - split; reflexivity.
  - split; reflexivity.
Defined.

Lemma prefix_refl s : String.prefix s s = true.
Proof.
  induction s as [|a s IH]; cbn; [done|].
  by destruct (ascii_dec a a).
Qed.

(** A response is shown by a line that ends with it. *)
Lemma str_contains_suffix sub pre : str_contains sub (pre +:+ sub) = true.
Proof.
  induction pre as [|c pre IH].
  - change ("" +:+ sub) with sub. destruct sub; cbn [str_contains];
      by rewrite prefix_refl.
  - change (String c pre +:+ sub) with (String c (pre +:+ sub)).
    cbn [str_contains]. rewrite IH. apply orb_true_r.
Qed.

Lemma lacks_field_dict d :
  d !! "bytesBase64Encoded" = None → lacks_field (PyDict d).
Proof. intros Hd. unfold lacks_field, py_contains. by rewrite Hd. Qed.

(** C3 as the specification states it fails on a response without
    predictions: the run ends with status 1 and writes nothing, but no line
    of the error stream shows the response; the diagnostic is the one of the
    general handler around the call. *)
Lemma C3_counterexample :
  let o := run (upscale_image sample_cfg empty_env "pics/cat.png" "x2")
             (start sample_files) in
  predict empty_env [instance (b64encode sample_picture)] (parameters "x2")
    = inr empty_response ∧
  predictions empty_response = [] ∧
  stderr (final o)
    = [ sending "pics/cat.png" "x2";
        "Error during API call: list index out of range";
        permissions_hint ] ∧
  ¬ prints_response empty_env empty_response (final o).
Proof.
  cbn zeta. split; [reflexivity|]. split; [reflexivity|].
  assert (stderr (final (run (upscale_image sample_cfg empty_env "pics/cat.png" "x2")
                           (start sample_files)))
          = [ sending "pics/cat.png" "x2";
              "Error during API call: list index out of range";
              permissions_hint ]) as Herr by (vm_compute; reflexivity).
  split; [exact Herr|].
  intros (line & Hin & Hshown). rewrite Herr in Hin.
  destruct Hin as [<-|[<-|[<-|[]]]]; vm_compute in Hshown; discriminate.
Qed.

(** C3.  After a connection and a readable source, a response without
    predictions ends the run with status 1, with no file written and nothing
    on standard output, but without the diagnostic of the claim:
    [predictions[0]] fails before the test for the image field is made, the
    handler around the call catches the failure, and the error stream has
    "Error during API call: list index out of range" and the permissions
    hint, not the response.  A response whose first prediction answers the
    test for the field with no ends the run in the same way with the line
    that the claim describes, "Error: API response did not contain an
    image." followed by the response.  Of the predictions only the first is
    looked at: steps 5 and 6 treat alike two answers with the same first
    prediction and the same printed form. *)
Theorem C3_missing_image_is_fatal cfg env source_path factor files
    image_bytes response :
  connects cfg env →
  readable env files source_path image_bytes →
  predict env [instance (b64encode image_bytes)] (parameters factor) = inr response →
  let o := run (upscale_image cfg env source_path factor) (start files) in
  (predictions response = [] →
     exit_status o = 1%Z ∧ fs (final o) = files ∧ stdout (final o) = [] ∧
     stderr (final o)
       = [ sending source_path factor;
           "Error during API call: list index out of range";
           permissions_hint ])
  ∧ (∀ first rest,
       predictions response = first :: rest →
       lacks_field first →
       exit_status o = 1%Z ∧ fs (final o) = files ∧ stdout (final o) = [] ∧
       stderr (final o)
         = [ sending source_path factor;
             "Error: API response did not contain an image. "
             +:+ str_Prediction env response ] ∧
       prints_response env response (final o))
  ∧ (∀ env' response' w,
       predict env' [instance (b64encode image_bytes)] (parameters factor)
         = inr response' →
       head (predictions response') = head (predictions response) →
       str_Prediction env' response' = str_Prediction env response →
       call_and_decode env' source_path factor (b64encode image_bytes) w
       = call_and_decode env source_path factor (b64encode image_bytes) w).
Proof.
  intros Hconn Hread Hp o. subst o. split; [|split].
  - intros Hnil.
    rewrite (run_exit _ _
               (logged [EvPredict [instance (b64encode image_bytes)] (parameters factor)]
                  [sending source_path factor;
                   "Error during API call: list index out of range";
                   permissions_hint]
                  (logged [EvInit (PROJECT_ID cfg) (LOCATION cfg);
                           EvModel (model_resource cfg);
                           EvOpenRead source_path] [] (start files))) 1).
    + by cbn.
    + rewrite upscale_image_split. unfold mbind.
      rewrite (obtain_reaches cfg env source_path factor (start files) image_bytes)
        by done.
      by rewrite (call_and_decode_empty env source_path factor _ _ response).
  - intros first rest Hcons Hlacks.
    rewrite (run_exit _ _
               (logged [EvPredict [instance (b64encode image_bytes)] (parameters factor)]
                  [sending source_path factor;
                   "Error: API response did not contain an image. "
                   +:+ str_Prediction env response]
                  (logged [EvInit (PROJECT_ID cfg) (LOCATION cfg);
                           EvModel (model_resource cfg);
                           EvOpenRead source_path] [] (start files))) 1).
    + cbn. repeat split; try done.
      eexists. split; [right; left; reflexivity|]. apply str_contains_suffix.
    + rewrite upscale_image_split. unfold mbind.
      rewrite (obtain_reaches cfg env source_path factor (start files) image_bytes)
        by done.
      by rewrite (call_and_decode_missing env source_path factor _ _ response first rest).
  - intros env' response' w Hp' Hhead Hstr.
    by apply (call_and_decode_first_only env' env source_path factor _ w
                response' response).
Qed.

(** C3 on the sample machine, for the answer without predictions and for
    the prediction without an image field. *)
Lemma C3_witness :
  (connects sample_cfg empty_env ∧
   readable empty_env sample_files "pics/cat.png" sample_picture ∧
   exit_status (run (upscale_image sample_cfg empty_env "pics/cat.png" "x2")
                  (start sample_files)) = 1%Z ∧
   stderr (final (run (upscale_image sample_cfg empty_env "pics/cat.png" "x2")
                    (start sample_files)))
   = [ sending "pics/cat.png" "x2";
       "Error during API call: list index out of range";
       permissions_hint ]) ∧
  (connects sample_cfg fieldless_env ∧
   readable fieldless_env sample_files "pics/cat.png" sample_picture ∧
   exit_status (run (upscale_image sample_cfg fieldless_env "pics/cat.png" "x2")
                  (start sample_files)) = 1%Z ∧
   prints_response fieldless_env fieldless_response
     (final (run (upscale_image sample_cfg fieldless_env "pics/cat.png" "x2")
               (start sample_files)))).
Proof.
  split.
  - assert (connects sample_cfg empty_env) as Hconn by (split; reflexivity).
    assert (readable empty_env sample_files "pics/cat.png" sample_picture)
      as Hread by (split; reflexivity).
    split; [exact Hconn|]. split; [exact Hread|].
    destruct (C3_missing_image_is_fatal sample_cfg empty_env "pics/cat.png" "x2"
                sample_files sample_picture empty_response Hconn Hread eq_refl)
      as (Hempty & _ & _).
    destruct (Hempty eq_refl) as (Hexit & _ & _ & Herr).
    split; [exact Hexit|exact Herr].
  - assert (connects sample_cfg fieldless_env) as Hconn by (split; reflexivity).
    assert (readable fieldless_env sample_files "pics/cat.png" sample_picture)
      as Hread by (split; reflexivity).
    split; [exact Hconn|]. split; [exact Hread|].
    destruct (C3_missing_image_is_fatal sample_cfg fieldless_env "pics/cat.png" "x2"
                sample_files sample_picture fieldless_response Hconn Hread eq_refl)
      as (_ & Hfield & _).
    destruct (Hfield (PyDict {[ "mimeType" := PyStr "image/png" ]}) [] eq_refl)
      as (Hexit & _ & _ & _ & Hshown).
    + apply lacks_field_dict. vm_compute. reflexivity.
    + split; [exact Hexit|exact Hshown].
Defined.




(** C5 as the specification states it fails on a path below a file that is
    no directory: nothing is at the path, and the system answers the attempt
    to open it with another error than the one for a missing file, so the
    run ends with the line for other read failures and without the "not
    found" line.  It fails as well when the connection cannot be made: the
    run ends before the source is looked at. *)
Lemma C5_counterexample :
  (sample_files !! resolve good_env "pics/cat.png/x" = None ∧
   stderr (final (run (upscale_image sample_cfg good_env "pics/cat.png/x" "x2")
                    (start sample_files)))
   = ["Error reading source file: [Errno 20] Not a directory: 'pics/cat.png/x'"]) ∧
  (sample_files !! resolve nocreds_env "pics/dog.png" = None ∧
   trace (final (run (upscale_image sample_cfg nocreds_env "pics/dog.png" "x2")
                   (start sample_files)))
   = [EvInit "demo-project" "us-central1"] ∧
   ¬ In "Error: Source file not found at pics/dog.png"
       (stderr (final (run (upscale_image sample_cfg nocreds_env "pics/dog.png" "x2")
                         (start sample_files))))).
Proof.
  split; [split; vm_compute; reflexivity|].
  split; [vm_compute; reflexivity|]. split; [vm_compute; reflexivity|].
  assert (stderr (final (run (upscale_image sample_cfg nocreds_env "pics/dog.png" "x2")
                           (start sample_files)))
          = [ "Error initializing Vertex AI. Did you set GOOGLE_APPLICATION_CREDENTIALS?";
              "Details: Your default credentials were not found." ]) as Herr
    by (vm_compute; reflexivity).
  rewrite Herr. intros [Hin|[Hin|[]]]; discriminate Hin.
Qed.

(** C5, amended.  After the connection, a source path that the system
    reports as missing ([open] raises [FileNotFoundError]: nothing is at the
    path and no other fault comes first) ends the run with status 1 and the
    one line "Error: Source file not found at <path>" on the error stream;
    no file is written, nothing is printed on standard output and the
    service is not called.  Any other failure to read the source, of a file
    that is there or of a path at which nothing is, ends the run in the same
    way with the line "Error reading source file: <message>". *)
Theorem C5_unreadable_source_is_fatal cfg env source_path factor files :
  connects cfg env →
  let o := run (upscale_image cfg env source_path factor) (start files) in
  let calls := [ EvInit (PROJECT_ID cfg) (LOCATION cfg);
                 EvModel (model_resource cfg);
                 EvOpenRead source_path ] in
  (read_fault env source_path = None →
   files !! resolve env source_path = None →
     exit_status o = 1%Z ∧
     stderr (final o) = ["Error: Source file not found at " +:+ source_path] ∧
     fs (final o) = files ∧ stdout (final o) = [] ∧ trace (final o) = calls)
  ∧ (∀ msg,
       read_fault env source_path = Some (FileNotFoundError, msg) →
       exit_status o = 1%Z ∧
       stderr (final o) = ["Error: Source file not found at " +:+ source_path] ∧
       fs (final o) = files ∧ stdout (final o) = [] ∧ trace (final o) = calls)
  ∧ (∀ cls msg,
       read_fault env source_path = Some (cls, msg) →
       cls ≠ FileNotFoundError →
       exit_status o = 1%Z ∧
       stderr (final o) = ["Error reading source file: " +:+ msg] ∧
       fs (final o) = files ∧ stdout (final o) = [] ∧ trace (final o) = calls).
Proof.
  intros [Hinit Hmodel] o calls. subst o calls. split; [|split].
  - intros Hfault Hfile.
    rewrite (run_exit _ _
               (logged [EvOpenRead source_path]
                  ["Error: Source file not found at " +:+ source_path]
                  (logged [EvInit (PROJECT_ID cfg) (LOCATION cfg);
                           EvModel (model_resource cfg)] [] (start files))) 1).
    + by cbn.
    + rewrite upscale_image_split. unfold mbind, obtain, mbind.
      rewrite connect_eq, Hinit, Hmodel, read_and_encode_eq, fs_logged.
      cbn [fs start]. by rewrite Hfault, Hfile.
  - intros msg Hfault.
    rewrite (run_exit _ _
               (logged [EvOpenRead source_path]
                  ["Error: Source file not found at " +:+ source_path]
                  (logged [EvInit (PROJECT_ID cfg) (LOCATION cfg);
                           EvModel (model_resource cfg)] [] (start files))) 1).
    + by cbn.
    + rewrite upscale_image_split. unfold mbind, obtain, mbind.
      rewrite connect_eq, Hinit, Hmodel, read_and_encode_eq.
      by rewrite Hfault.
  - intros cls msg Hfault Hcls.
    rewrite (run_exit _ _
               (logged [EvOpenRead source_path]
                  ["Error reading source file: " +:+ msg]
                  (logged [EvInit (PROJECT_ID cfg) (LOCATION cfg);
                           EvModel (model_resource cfg)] [] (start files))) 1).
    + by cbn.
    + rewrite upscale_image_split. unfold mbind, obtain, mbind.
      rewrite connect_eq, Hinit, Hmodel, read_and_encode_eq.
      rewrite Hfault. by destruct cls.
Qed.

(** C5 on the sample machine: a picture that is not there, and one that
    may not be read. *)
Lemma C5_witness :
  connects sample_cfg good_env ∧
  sample_files !! resolve good_env "pics/dog.png" = None ∧
  stderr (final (run (upscale_image sample_cfg good_env "pics/dog.png" "x2")
                   (start sample_files)))
  = ["Error: Source file not found at pics/dog.png"] ∧
  stderr (final (run (upscale_image sample_cfg good_env "pics/locked.png" "x2")
                   (start (<[ "pics/locked.png" := sample_picture ]> sample_files))))
  = ["Error reading source file: [Errno 13] Permission denied"].
Proof.
  assert (connects sample_cfg good_env) as Hconn by (split; reflexivity).
  split; [exact Hconn|]. split; [reflexivity|]. split.
  - destruct (C5_unreadable_source_is_fatal sample_cfg good_env "pics/dog.png" "x2"
                sample_files Hconn) as [Hmissing _].
    destruct (Hmissing eq_refl eq_refl) as (_ & Herr & _). exact Herr.
  - destruct (C5_unreadable_source_is_fatal sample_cfg good_env "pics/locked.png" "x2"
                (<[ "pics/locked.png" := sample_picture ]> sample_files) Hconn)
      as (_ & _ & Hfault).
    destruct (Hfault PermissionError "[Errno 13] Permission denied")
      as (_ & Herr & _); [reflexivity|discriminate|].
    exact Herr.
Defined.

(* --------------------------------------------------------------------- *)
(** ** Names and places *)

Lemma append_cons a s t : String a s +:+ t = String a (s +:+ t).
Proof. reflexivity. Qed.

Lemma append_nil_r s : s +:+ "" = s.
Proof. induction s as [|a s IH]; [done|]. by rewrite append_cons, IH. Qed.

Lemma str_take_drop i s : posixpath.str_take i s +:+ posixpath.str_drop i s = s.
Proof.
  revert i. induction s as [|a s IH]; intros [|i]; cbn; try done.
  by rewrite append_cons, IH.
Qed.

(** [splitext] cuts its argument in two. *)
Lemma splitext_parts s :
  fst (posixpath.splitext s) +:+ snd (posixpath.splitext s) = s.
Proof.
  unfold posixpath.splitext.
  destruct (_ && _); cbn [fst snd]; [apply str_take_drop|].
  apply append_nil_r.
Qed.

(** The file name that step 7 takes from [split] is the [basename]. *)
Lemma source_filename_basename p : source_filename p = posixpath.basename p.
Proof.
  unfold source_filename, posixpath.split, posixpath.basename.
  by destruct (_ && _).
Qed.

(** A path without a slash has no last slash. *)
Lemma rfind_bare p : bare_filename p = true → posixpath.rfind posixpath.sep p = (-1)%Z.
Proof.
  unfold bare_filename. rewrite negb_true_iff.
  induction p as [|a p IH];
    cbn [list_ascii_of_string existsb posixpath.rfind]; [done|].
  intros [Ha Hp]%orb_false_iff. rewrite (IH Hp). cbv zeta.
  rewrite Ascii.eqb_sym in Ha. by rewrite Ha.
Qed.

Lemma split_bare p : bare_filename p = true → posixpath.split p = ("", p).
Proof.
  intros Hbare. unfold posixpath.split. rewrite (rfind_bare p Hbare). cbn.
  by destruct p.
Qed.

(** C6.  With [B] and [E] the base and the extension that [splitext] finds
    in the base name of the source path, the output file is named
    [B ++ "_upscaled_" ++ f ++ E]; the two parts make up the base name.
    When the source path has a directory, the primary path is that name
    joined to that directory, and a run that has the bytes and meets no
    obstacle at the primary path (no fallback) writes them exactly there. *)
Theorem C6_output_name_and_place env source_path factor :
  let B := fst (posixpath.splitext (posixpath.basename source_path)) in
  let E := snd (posixpath.splitext (posixpath.basename source_path)) in
  output_filename source_path factor = B +:+ "_upscaled_" +:+ factor +:+ E
  ∧ B +:+ E = posixpath.basename source_path
  ∧ (posixpath.nonempty (source_dir source_path) = true →
     primary_path env source_path factor
     = posixpath.join (source_dir source_path)
         (B +:+ "_upscaled_" +:+ factor +:+ E))
  ∧ (∀ cfg files upscaled_bytes,
       fst (obtain cfg env source_path factor (start files)) = Val upscaled_bytes →
       access_W_OK env (target_dir env source_path) = true →
       write_fault env (primary_path env source_path factor) = None →
       fs (final (run (upscale_image cfg env source_path factor) (start files)))
       = <[ resolve env (primary_path env source_path factor) := upscaled_bytes ]>
           files).
Proof.
  intros B E. subst B E.
  assert (output_filename source_path factor
          = fst (posixpath.splitext (posixpath.basename source_path))
            +:+ "_upscaled_" +:+ factor
            +:+ snd (posixpath.splitext (posixpath.basename source_path))) as Hname.
  { unfold output_filename. rewrite source_filename_basename.
    by destruct (posixpath.splitext _). }
  split; [exact Hname|]. split; [apply splitext_parts|]. split.
  - intros Hdir. unfold primary_path, target_dir. by rewrite Hdir, Hname.
  - intros cfg files upscaled_bytes Hob Hacc Hwf.
    destruct (obtain cfg env source_path factor (start files)) as [r w1] eqn:Hobt.
    cbn in Hob. subst r.
    pose proof Hobt as Hinv. apply obtain_inv in Hinv
      as (image_bytes & response & d & rest & payload
          & _ & _ & _ & _ & _ & _ & _ & Hw1).
    rewrite run_fs, upscale_image_split. unfold mbind. rewrite Hobt.
    destruct (finish_cases env source_path factor upscaled_bytes w1)
      as (paths & [(out & warning & Hat & Hfin)
                  |[(cls & msg & Hnw & _ & Hfin)|(cls & msg & _ & Hwf' & _ & Hfin)]]).
    + destruct Hat as [(-> & _)|(_ & _ & Hnw & _)].
      * destruct (image_size env upscaled_bytes) as [[cls msg]|[width height]];
          rewrite Hfin, Hw1; cbn [snd fs printed refiled logged start];
          by rewrite primary_residue_none.
      * destruct Hnw as [Hno|(cls & msg & Hno & _)]; congruence.
    + destruct Hnw as [Hno|(cls' & msg' & Hno & _)]; congruence.
    + congruence.
Qed.

(** C6 on the sample machine. *)
Lemma C6_witness :
  output_filename "pics/cat.png" "x2" = "cat_upscaled_x2.png" ∧
  primary_path good_env "pics/cat.png" "x2" = "pics/cat_upscaled_x2.png" ∧
  fs (final (run (upscale_image sample_cfg good_env "pics/cat.png" "x2")
               (start sample_files)))
  = <[ "pics/cat_upscaled_x2.png" := [x4d; x61; x6e] ]> sample_files.
Proof.
  destruct (C6_output_name_and_place good_env "pics/cat.png" "x2")
    as (Hname & _ & Hplace & Hrun).
  split; [exact Hname|]. split; [exact (Hplace eq_refl)|].
  apply (Hrun sample_cfg sample_files [x4d; x61; x6e]).
  - vm_compute. reflexivity.
  - reflexivity.
  - reflexivity.
Defined.

(** C9.  For a source path without a slash, [split] gives an empty
    directory, the target directory is the working directory, and the
    primary path is the fallback path. *)
Theorem C9_bare_filename_targets_cwd env source_path factor :
  bare_filename source_path = true →
  source_dir source_path = "" ∧
  target_dir env source_path = getcwd env ∧
  primary_path env source_path factor = fallback_path env source_path factor.
Proof.
  intros Hbare.
  assert (source_dir source_path = "") as Hdir
    by (unfold source_dir; by rewrite split_bare).
  assert (target_dir env source_path = getcwd env) as Htarget
    by (unfold target_dir; by rewrite Hdir).
  repeat split; try done.
  unfold primary_path, fallback_path. by rewrite Htarget.
Qed.

(** C9 on the sample machine. *)
Lemma C9_witness :
  bare_filename "cat.png" = true ∧
  target_dir good_env "cat.png" = "/home/user" ∧
  primary_path good_env "cat.png" "x4" = "/home/user/cat_upscaled_x4.png" ∧
  fallback_path good_env "cat.png" "x4" = "/home/user/cat_upscaled_x4.png".
Proof.
  split; [reflexivity|].
  destruct (C9_bare_filename_targets_cwd good_env "cat.png" "x4" eq_refl)
    as (_ & Htarget & Hsame).
  split; [exact Htarget|]. split; [|reflexivity].
  rewrite Hsame. reflexivity.
Defined.

(* --------------------------------------------------------------------- *)
(** ** The report and the command line *)

(** C7.  A run that ends with status 0 has printed four lines on standard
    output: the absolute source path, the absolute output path, the size
    and the dimensions.  The size is the length of the content of the
    output file after the run; the dimensions are what the image decoder
    finds in the decoded bytes, which are that content; and the only file
    opened for reading in the whole run is the source. *)
Theorem C7_report cfg env source_path factor files :
  let o := run (upscale_image cfg env source_path factor) (start files) in
  exit_status o = 0%Z →
  ∃ output_path upscaled_bytes width height,
    stdout (final o)
      = [ "Source Image:     " +:+ abspath env source_path;
          "Upscaled Image:   " +:+ abspath env output_path;
          "New Filesize:     " +:+ pretty (N.of_nat (length upscaled_bytes)) +:+ " bytes";
          "New Dimensions:   " +:+ pretty width +:+ "x" +:+ pretty height ] ∧
    fs (final o) !! resolve env output_path = Some upscaled_bytes ∧
    fst (obtain cfg env source_path factor (start files)) = Val upscaled_bytes ∧
    image_size env upscaled_bytes = inr (width, height) ∧
    List.filter is_open_read (trace (final o)) = [EvOpenRead source_path].
Proof.
  intros o Hok. subst o.
  apply success_runs_through in Hok as (w' & Hrun & ->).
  rewrite upscale_image_split in Hrun. unfold mbind in Hrun.
  destruct (obtain cfg env source_path factor (start files))
    as [[data|e] w1] eqn:Hob; [|done].
  apply obtain_inv in Hob
    as (image_bytes & response & d & rest & payload
        & _ & _ & _ & _ & _ & _ & _ & ->).
  pose proof (finish_quiet env source_path factor data
                (logged [EvInit (PROJECT_ID cfg) (LOCATION cfg);
                         EvModel (model_resource cfg);
                         EvOpenRead source_path;
                         EvPredict [instance (b64encode image_bytes)] (parameters factor)]
                   [sending source_path factor] (start files))
                is_open_read (λ _, eq_refl) (λ _, eq_refl) (λ _, eq_refl))
    as Hquiet.
  destruct (finish_cases env source_path factor data
              (logged [EvInit (PROJECT_ID cfg) (LOCATION cfg);
                       EvModel (model_resource cfg);
                       EvOpenRead source_path;
                       EvPredict [instance (b64encode image_bytes)] (parameters factor)]
                 [sending source_path factor] (start files)))
    as (paths & [(out & warning & Hat & Hfin)
                |[(cls & msg & _ & _ & Hfin)|(cls & msg & _ & _ & _ & Hfin)]]);
    [|congruence..].
  destruct (image_size env data) as [[cls msg]|[width height]] eqn:Himg;
    [congruence|].
  rewrite Hfin in Hquiet. cbn [snd] in Hquiet.
  rewrite Hfin in Hrun. injection Hrun as <-.
  exists out, data, width, height.
  split; [reflexivity|]. split; [apply lookup_insert_eq|].
  split; [reflexivity|]. split; [exact Himg|].
  etransitivity; [exact Hquiet|reflexivity].
Qed.

(** C7 on the sample machine. *)
Lemma C7_witness :
  stdout (final (run (upscale_image sample_cfg good_env "pics/cat.png" "x2")
                   (start sample_files)))
  = [ "Source Image:     /home/user/pics/cat.png";
      "Upscaled Image:   /home/user/pics/cat_upscaled_x2.png";
      "New Filesize:     3 bytes";
      "New Dimensions:   8x6" ].
Proof.
  destruct (C7_report sample_cfg good_env "pics/cat.png" "x2" sample_files)
    as (out & data & width & height & Hout & _ & _ & _ & _).
  - vm_compute. reflexivity.
  - vm_compute. reflexivity.
Defined.

(** The two ways in which [main] leaves before step 1. *)
Lemma main_placeholder cfg env argv w :
  PROJECT_ID cfg = "your-gcp-project-id" →
  main cfg env argv w =
  (Exc (SystemExit 1),
   logged []
     ["Error: Please edit the PROJECT_ID and LOCATION constants at the top of the script."]
     w).
Proof.
  intros Hid. unfold main. rewrite Hid. unfold_py. cbn. same_world.
Qed.





(** C10.  With [PROJECT_ID] at its placeholder, every invocation ends
    with status 1 and the one configuration line on the error stream,
    whatever the command line holds: nothing of [argparse] is printed,
    nothing is called, no file is touched.  The script as it is in the
    repository has the placeholder. *)
Theorem C10_placeholder_checked_first cfg env argv files :
  PROJECT_ID cfg = "your-gcp-project-id" →
  let o := run (main cfg env argv) (start files) in
  exit_status o = 1%Z ∧
  stderr (final o)
    = ["Error: Please edit the PROJECT_ID and LOCATION constants at the top of the script."] ∧
  stdout (final o) = [] ∧
  trace (final o) = [] ∧
  fs (final o) = files.
Proof.
  intros Hid o. subst o.
  rewrite (run_exit _ _ _ 1 (main_placeholder cfg env argv (start files) Hid)).
  cbn. repeat split; done.
Qed.

(** C10 on the script as shipped, with a command line that [argparse]
    would refuse. *)
Lemma C10_witness :
  PROJECT_ID shipped = "your-gcp-project-id" ∧
  exit_status (run (main shipped good_env ["pics/cat.png"; "x3"; "more"])
                 (start sample_files)) = 1%Z ∧
  stderr (final (run (main shipped good_env ["pics/cat.png"; "x3"; "more"])
                   (start sample_files)))
  = ["Error: Please edit the PROJECT_ID and LOCATION constants at the top of the script."].
Proof.
  split; [reflexivity|].
  destruct (C10_placeholder_checked_first shipped good_env
              ["pics/cat.png"; "x3"; "more"] sample_files eq_refl)
    as (Hexit & Herr & _).
  split; [exact Hexit|exact Herr].
Defined.

(** A well-formed command line on a configured script runs
    [upscale_image] on its two words. *)
Lemma main_runs_upscale_image cfg env source_image upscale_factor w :
  PROJECT_ID cfg ≠ "your-gcp-project-id" →
  existsb is_option_syntax [source_image; upscale_factor] = false →
  upscale_factor ∈ choices →
  main cfg env [source_image; upscale_factor] w
  = upscale_image cfg env source_image upscale_factor w.
Proof.
  intros Hid Hwords Hchoice. unfold main, parse_args.
  apply String.eqb_neq in Hid. rewrite Hid, Hwords.
  by rewrite (bool_decide_eq_true_2 _ Hchoice).
Qed.

(** A run whose decoded bytes are no image: the file is written, then
    [Image.open] raises and nothing catches it. *)
Lemma undecodable_image_run :
  let env := sample_env good_answer (λ _, true) (λ _, None)
               (inl (OtherException "PIL.UnidentifiedImageError",
                     "cannot identify image file")) in
  let o := run (upscale_image sample_cfg env "pics/cat.png" "x2")
             (start sample_files) in
  exit_status o = 1%Z ∧ stdout (final o) = [] ∧
  fs (final o) !! "pics/cat_upscaled_x2.png" = Some [x4d; x61; x6e].
Proof. vm_compute. repeat split; reflexivity. Qed.

(* --------------------------------------------------------------------- *)
(** ** Checks on concrete inputs *)

Example split_nested : posixpath.split "/a/b/photo.png" = ("/a/b", "photo.png").
Proof. reflexivity. Qed.

Example split_root : posixpath.split "/photo.png" = ("/", "photo.png").
Proof. reflexivity. Qed.

Example split_double_slash : posixpath.split "a//photo.png" = ("a", "photo.png").
Proof. reflexivity. Qed.

Example split_trailing_slash : posixpath.split "a/b/" = ("a/b", "").
Proof. reflexivity. Qed.

Example splitext_two_dots : posixpath.splitext "photo.tar.gz" = ("photo.tar", ".gz").
Proof. reflexivity. Qed.

Example splitext_hidden : posixpath.splitext ".bashrc" = (".bashrc", "").
Proof. reflexivity. Qed.

Example splitext_leading_dots : posixpath.splitext "..a.b" = ("..a", ".b").
Proof. reflexivity. Qed.

Example join_plain : posixpath.join "/a" "b" = "/a/b".
Proof. reflexivity. Qed.

Example join_root : posixpath.join "/" "b" = "/b".
Proof. reflexivity. Qed.

Example output_filename_hidden : output_filename "/srv/.profile" "x4" = ".profile_upscaled_x4".
Proof. reflexivity. Qed.

Example b2a_Man : Base64.b2a_base64 [x4d; x61; x6e] = "TWFu".
Proof. reflexivity. Qed.

Example b2a_Ma : Base64.b2a_base64 [x4d; x61] = "TWE=".
Proof. reflexivity. Qed.

Example b2a_M : Base64.b2a_base64 [x4d] = "TQ==".
Proof. reflexivity. Qed.

Example a2b_short_padding : Base64.a2b_base64 "TQ=" = inl Base64.IncorrectPadding.
Proof. reflexivity. Qed.

Example a2b_one_extra : Base64.a2b_base64 "TWFuT" = inl (Base64.OneExtraChar 5).
Proof. reflexivity. Qed.

Example a2b_skips_blank : Base64.a2b_base64 "TW Fu" = inr [x4d; x61; x6e].
Proof. reflexivity. Qed.

(* ===================================================================== *)
(** * Further properties of the script *)
(* ===================================================================== *)

(* --------------------------------------------------------------------- *)
(** ** Strings *)

Lemma length_append s t :
  String.length (s +:+ t) = (String.length s + String.length t)%nat.
Proof.
  induction s as [|a s IH]; [done|]. rewrite append_cons. cbn. by rewrite IH.
Qed.

Lemma append_assoc s t u : (s +:+ t) +:+ u = s +:+ (t +:+ u).
Proof.
  induction s as [|a s IH]; [done|]. by rewrite !append_cons, IH.
Qed.

Lemma lacks_nil c : lacks c "" = true.
Proof. reflexivity. Qed.

Lemma lacks_cons c a s : lacks c (String a s) = negb (Ascii.eqb c a) && lacks c s.
Proof. unfold lacks. cbn [list_ascii_of_string existsb]. apply negb_orb. Qed.

Lemma lacks_append c s t : lacks c (s +:+ t) = lacks c s && lacks c t.
Proof.
  induction s as [|a s IH]; [done|].
  by rewrite append_cons, !lacks_cons, IH, andb_assoc.
Qed.

Lemma lacks_str_take c i s : lacks c s = true → lacks c (posixpath.str_take i s) = true.
Proof.
  revert i. induction s as [|a s IH]; intros [|i]; cbn [posixpath.str_take]; try done.
  rewrite !lacks_cons. intros [-> Hs]%andb_true_iff. cbn. by apply IH.
Qed.

Lemma lacks_str_drop c i s : lacks c s = true → lacks c (posixpath.str_drop i s) = true.
Proof.
  revert i. induction s as [|a s IH]; intros [|i]; cbn [posixpath.str_drop]; try done.
  rewrite lacks_cons. intros [_ Hs]%andb_true_iff. by apply IH.
Qed.

Lemma str_take_app s t : posixpath.str_take (String.length s) (s +:+ t) = s.
Proof.
  induction s as [|a s IH]; [by destruct t|].
  rewrite append_cons. cbn. by rewrite IH.
Qed.

Lemma str_drop_app s t : posixpath.str_drop (String.length s) (s +:+ t) = t.
Proof.
  induction s as [|a s IH]; [by destruct t|].
  rewrite append_cons. cbn. by rewrite IH.
Qed.

(** [rfind] is [-1] exactly on the strings without the character, and an
    index into the string otherwise. *)
Lemma rfind_range c s :
  (-1 ≤ posixpath.rfind c s < Z.of_nat (String.length s))%Z.
Proof.
  induction s as [|a s IH]; cbn [posixpath.rfind String.length]; [lia|].
  cbv zeta. destruct (0 <=? posixpath.rfind c s)%Z eqn:Hr.
  - apply Z.leb_le in Hr. lia.
  - destruct (Ascii.eqb a c); lia.
Qed.

Lemma rfind_lacks c s : lacks c s = true → posixpath.rfind c s = (-1)%Z.
Proof.
  induction s as [|a s IH]; [done|].
  rewrite lacks_cons. intros [Ha Hs]%andb_true_iff.
  cbn [posixpath.rfind]. rewrite (IH Hs). cbv zeta.
  apply negb_true_iff in Ha. rewrite Ascii.eqb_sym in Ha. by rewrite Ha.
Qed.

Lemma rfind_neg_lacks c s : posixpath.rfind c s = (-1)%Z → lacks c s = true.
Proof.
  induction s as [|a s IH]; [done|].
  cbn [posixpath.rfind]. cbv zeta. pose proof (rfind_range c s) as Hrange.
  destruct (0 <=? posixpath.rfind c s)%Z eqn:Hr.
  - apply Z.leb_le in Hr. lia.
  - apply Z.leb_gt in Hr.
    destruct (Ascii.eqb a c) eqn:Ha; [done|]. intros _.
    rewrite lacks_cons, Ascii.eqb_sym, Ha. cbn. apply IH. lia.
Qed.

(** The last occurrence: after [s], the character, and a rest without
    it. *)
Lemma rfind_app_last c s t :
  lacks c t = true →
  posixpath.rfind c (s +:+ String c t) = Z.of_nat (String.length s).
Proof.
  intros Ht. induction s as [|a s IH].
  - change ("" +:+ String c t) with (String c t).
    cbn [posixpath.rfind String.length]. rewrite (rfind_lacks c t Ht). cbv zeta.
    by rewrite Ascii.eqb_refl.
  - rewrite append_cons. cbn [posixpath.rfind String.length]. rewrite IH. cbv zeta.
    destruct (0 <=? Z.of_nat (String.length s))%Z eqn:Hle; [lia|].
    apply Z.leb_gt in Hle. lia.
Qed.

Lemma rfind_app_lacks c s t :
  lacks c t = true → posixpath.rfind c (s +:+ t) = posixpath.rfind c s.
Proof.
  intros Ht. induction s as [|a s IH].
  - by apply rfind_lacks.
  - rewrite append_cons. cbn [posixpath.rfind]. by rewrite IH.
Qed.

(** Where [rfind] points, the character stands, and the rest is without
    it. *)
Lemma rfind_split c s n :
  posixpath.rfind c s = Z.of_nat n →
  posixpath.str_drop n s = String c (posixpath.str_drop (S n) s) ∧
  lacks c (posixpath.str_drop (S n) s) = true.
Proof.
  revert n. induction s as [|a s IH]; intros n; cbn [posixpath.rfind]; [lia|].
  cbv zeta. pose proof (rfind_range c s) as Hrange.
  destruct (0 <=? posixpath.rfind c s)%Z eqn:Hr.
  - apply Z.leb_le in Hr. intros Hn. destruct n as [|n]; [lia|].
    cbn [posixpath.str_drop]. apply IH. lia.
  - apply Z.leb_gt in Hr.
    destruct (Ascii.eqb a c) eqn:Ha; [|lia].
    intros Hn. destruct n as [|n]; [|lia].
    apply Ascii.eqb_eq in Ha as ->. cbn [posixpath.str_drop].
    split; [by destruct s|]. destruct s; [done|]. apply rfind_neg_lacks. lia.
Qed.

(* --------------------------------------------------------------------- *)
(** ** The name and the place of the output, continued *)

Lemma str_drop_0 s : posixpath.str_drop 0 s = s.
Proof. by destruct s. Qed.

Lemma basename_lacks_sep p : lacks posixpath.sep (posixpath.basename p) = true.
Proof.
  unfold posixpath.basename.
  pose proof (rfind_range posixpath.sep p) as Hrange.
  destruct (decide (posixpath.rfind posixpath.sep p = (-1)%Z)) as [Hnone|Hsome].
  - rewrite Hnone. cbn. rewrite str_drop_0. by apply rfind_neg_lacks.
  - destruct (rfind_split posixpath.sep p
                (Z.to_nat (posixpath.rfind posixpath.sep p))) as [_ Hrest]; [lia|].
    replace (Z.to_nat (posixpath.rfind posixpath.sep p + 1))
      with (S (Z.to_nat (posixpath.rfind posixpath.sep p))) by lia.
    exact Hrest.
Qed.

Lemma endswith_last c a :
  posixpath.endswith c a = true → ∃ a', a = a' +:+ String c "".
Proof.
  induction a as [|x a IH]; [done|]. cbn [posixpath.endswith].
  destruct a as [|y a].
  - intros ->%Ascii.eqb_eq. by exists "".
  - intros [a' Ha']%IH. exists (String x a'). by rewrite append_cons, <- Ha'.
Qed.

Lemma startswith_lacks c s : lacks c s = true → posixpath.startswith c s = false.
Proof.
  destruct s as [|a s]; [done|]. rewrite lacks_cons.
  intros [Ha _]%andb_true_iff. apply negb_true_iff in Ha.
  cbn. by rewrite Ascii.eqb_sym.
Qed.

(** Joining a directory and a name without a slash gives a path whose last
    component is the name. *)
Lemma basename_join dir name :
  lacks posixpath.sep name = true →
  posixpath.basename (posixpath.join dir name) = name.
Proof.
  intros Hname. unfold posixpath.join.
  rewrite (startswith_lacks _ _ Hname).
  assert (∀ a, posixpath.basename (a +:+ String posixpath.sep name) = name) as Hsep.
  { intros a. unfold posixpath.basename. rewrite (rfind_app_last _ a name Hname).
    replace (Z.to_nat (Z.of_nat (String.length a) + 1))
      with (String.length (a +:+ String posixpath.sep "")).
    - change (String posixpath.sep name) with (String posixpath.sep "" +:+ name).
      rewrite <- append_assoc. apply str_drop_app.
    - rewrite length_append. cbn. lia. }
  destruct dir as [|x dir].
  - cbn. unfold posixpath.basename.
    change ("" +:+ name) with name.
    rewrite (rfind_lacks _ _ Hname). cbn. apply str_drop_0.
  - cbn [posixpath.nonempty negb orb].
    destruct (posixpath.endswith posixpath.sep (String x dir)) eqn:Hend; [|apply Hsep].
    apply endswith_last in Hend as [a' ->].
    rewrite append_assoc. apply Hsep.
Qed.

Lemma splitext_lacks c s :
  lacks c s = true →
  lacks c (fst (posixpath.splitext s)) = true ∧
  lacks c (snd (posixpath.splitext s)) = true.
Proof.
  intros Hs. unfold posixpath.splitext. destruct (_ && _); cbn [fst snd].
  - split; [by apply lacks_str_take|by apply lacks_str_drop].
  - by split.
Qed.

(** The output name has no slash when the factor has none. *)
Lemma output_filename_lacks_sep p factor :
  lacks posixpath.sep factor = true →
  lacks posixpath.sep (output_filename p factor) = true.
Proof.
  intros Hf. unfold output_filename. rewrite source_filename_basename.
  destruct (splitext_lacks posixpath.sep (posixpath.basename p)
              (basename_lacks_sep p)) as [HB HE].
  destruct (posixpath.splitext (posixpath.basename p)) as [B E]. cbn in HB, HE.
  by rewrite !lacks_append, HB, Hf, HE.
Qed.

(** The output name is longer than the name of the source. *)
Lemma output_filename_length p factor :
  String.length (output_filename p factor)
  = (String.length (posixpath.basename p) + 10 + String.length factor)%nat.
Proof.
  unfold output_filename. rewrite source_filename_basename.
  pose proof (splitext_parts (posixpath.basename p)) as Hparts.
  destruct (posixpath.splitext (posixpath.basename p)) as [B E]. cbn in Hparts.
  rewrite <- Hparts, !length_append. cbn. lia.
Qed.

(** Neither place of the output is the source path. *)
Lemma output_path_not_source env source_path factor :
  lacks posixpath.sep factor = true →
  primary_path env source_path factor ≠ source_path ∧
  fallback_path env source_path factor ≠ source_path.
Proof.
  intros Hf.
  assert (∀ dir, posixpath.join dir (output_filename source_path factor) ≠ source_path)
    as Hne.
  { intros dir Heq. apply (f_equal posixpath.basename) in Heq.
    rewrite basename_join in Heq by by apply output_filename_lacks_sep.
    apply (f_equal String.length) in Heq.
    rewrite output_filename_length in Heq. lia. }
  split; apply Hne.
Qed.

Lemma all_chars_append c s t :
  posixpath.all_chars c (s +:+ t) = posixpath.all_chars c s && posixpath.all_chars c t.
Proof.
  induction s as [|a s IH]; [done|].
  rewrite append_cons. cbn [posixpath.all_chars]. by rewrite IH, andb_assoc.
Qed.

(** [splitext] on a name without a slash. *)
Lemma splitext_bare s :
  lacks posixpath.sep s = true →
  posixpath.splitext s =
  let dotIndex := posixpath.rfind posixpath.extsep s in
  if (0 <=? dotIndex)%Z &&
     negb (posixpath.all_chars posixpath.extsep
             (posixpath.str_take (Z.to_nat dotIndex) s))
  then (posixpath.str_take (Z.to_nat dotIndex) s,
        posixpath.str_drop (Z.to_nat dotIndex) s)
  else (s, "").
Proof.
  intros Hs. unfold posixpath.splitext. rewrite (rfind_lacks _ _ Hs). cbv zeta.
  change (Z.to_nat (-1 + 1)) with 0%nat. rewrite str_drop_0.
  replace (-1 <? posixpath.rfind posixpath.extsep s)%Z
    with (0 <=? posixpath.rfind posixpath.extsep s)%Z; [done|].
  destruct (0 <=? _)%Z eqn:Hle; symmetry.
  - apply Z.leb_le in Hle. apply Z.ltb_lt. lia.
  - apply Z.leb_gt in Hle. apply Z.ltb_ge. lia.
Qed.

(** [splitext] finds the extension behind a stem that is not made of dots
    only, and finds none where there is no dot or only dots before the
    last one. *)
Lemma splitext_stem_ext stem rest :
  lacks posixpath.sep (stem +:+ String posixpath.extsep rest) = true →
  lacks posixpath.extsep rest = true →
  posixpath.splitext (stem +:+ String posixpath.extsep rest) =
  if posixpath.all_chars posixpath.extsep stem
  then (stem +:+ String posixpath.extsep rest, "")
  else (stem, String posixpath.extsep rest).
Proof.
  intros Hsep Hrest. rewrite (splitext_bare _ Hsep). cbv zeta.
  rewrite (rfind_app_last _ stem rest Hrest), Nat2Z.id, str_take_app, str_drop_app.
  replace (0 <=? Z.of_nat (String.length stem))%Z with true
    by (symmetry; apply Z.leb_le; lia).
  by destruct (posixpath.all_chars posixpath.extsep stem).
Qed.

Lemma splitext_no_dot s :
  lacks posixpath.sep s = true →
  lacks posixpath.extsep s = true →
  posixpath.splitext s = (s, "").
Proof.
  intros Hsep Hdot. rewrite (splitext_bare _ Hsep), (rfind_lacks _ _ Hdot). done.
Qed.

(** The output name has the extension of the source name, behind the stem
    of the source name, the mark and the factor. *)
Lemma splitext_output_filename p factor :
  lacks posixpath.sep factor = true →
  lacks posixpath.extsep factor = true →
  posixpath.splitext (output_filename p factor) =
  (fst (posixpath.splitext (posixpath.basename p)) +:+ "_upscaled_" +:+ factor,
   snd (posixpath.splitext (posixpath.basename p))).
Proof.
  intros Hfsep Hfdot.
  pose proof (output_filename_lacks_sep p factor Hfsep) as Hosep.
  unfold output_filename in *. rewrite source_filename_basename in *.
  pose proof (basename_lacks_sep p) as Hsep.
  set (t := posixpath.basename p) in *.
  pose proof (rfind_range posixpath.extsep t) as Hrange.
  destruct (decide (posixpath.rfind posixpath.extsep t = (-1)%Z)) as [Hnone|Hsome].
  - (* no dot in the source name *)
    pose proof (rfind_neg_lacks _ _ Hnone) as Hdot.
    rewrite (splitext_no_dot t Hsep Hdot) in *. cbn [fst snd] in *.
    rewrite append_nil_r in *.
    apply splitext_no_dot; [done|].
    by rewrite !lacks_append, Hdot, Hfdot.
  - destruct (rfind_split posixpath.extsep t
                (Z.to_nat (posixpath.rfind posixpath.extsep t)))
      as [Hdrop Hrest]; [lia|].
    set (n := Z.to_nat (posixpath.rfind posixpath.extsep t)) in *.
    set (rest := posixpath.str_drop (S n) t) in *.
    pose proof (str_take_drop n t) as Ht. rewrite Hdrop in Ht.
    assert (posixpath.splitext t =
            if posixpath.all_chars posixpath.extsep (posixpath.str_take n t)
            then (t, "")
            else (posixpath.str_take n t, String posixpath.extsep rest)) as Hsplit.
    { pose proof (splitext_stem_ext (posixpath.str_take n t) rest) as Hstem.
      rewrite Ht in Hstem. by apply Hstem. }
    rewrite Hsplit in *.
    destruct (posixpath.all_chars posixpath.extsep (posixpath.str_take n t)) eqn:Hdots;
      cbn [fst snd] in *.
    + (* only dots before the last dot *)
      rewrite append_nil_r in *. rewrite <- Ht in Hosep |- * at 1.
      rewrite append_assoc in Hosep |- *. rewrite append_cons in Hosep |- *.
      rewrite splitext_stem_ext;
        [|done|by rewrite !lacks_append, Hrest, Hfdot].
      rewrite Hdots. f_equal.
      rewrite <- Ht at 2. by rewrite append_assoc, append_cons.
    + (* a stem and an extension *)
      replace (posixpath.str_take n t +:+ "_upscaled_" +:+ factor
               +:+ String posixpath.extsep rest)
        with ((posixpath.str_take n t +:+ "_upscaled_" +:+ factor)
              +:+ String posixpath.extsep rest) in Hosep |- *
        by (by rewrite !append_assoc).
      rewrite splitext_stem_ext by done.
      rewrite all_chars_append, Hdots. done.
Qed.

(* --------------------------------------------------------------------- *)
(** ** Runs that end early *)

Lemma run_error script w w' cls msg :
  script w = (Exc (Error cls msg), w') →
  run script w = {| exit_status := 1; final := logged [] (traceback cls msg) w' |}.
Proof. unfold run, logged. intros ->. by rewrite app_nil_r. Qed.

(** What [b64decode] says about a payload that it accepts. *)
Lemma b64decode_mret_inv payload data :
  b64decode (PyStr payload) = mret data →
  Base64.all_ascii payload = true ∧ Base64.a2b_base64 payload = inr data.
Proof.
  intros Heq. apply (f_equal (λ m, fst (m (start ∅)))) in Heq.
  unfold b64decode in Heq.
  destruct (Base64.all_ascii payload); [|done].
  destruct (Base64.a2b_base64 payload) as [[n|]|data']; cbn in Heq; try done.
  by injection Heq as ->.
Qed.

Section Early.
Context (cfg : Config) (env : Env) (source_path factor : string).
Context (files : gmap string (list byte)).

Let o := run (upscale_image cfg env source_path factor) (start files).

(** Lines 25 to 30: when [aiplatform.init] raises, the run ends with
    status 1 and the two lines of the handler; the model is not looked up,
    no file is opened and nothing is sent. *)
Theorem init_failure_is_fatal cls msg :
  init_fault env (PROJECT_ID cfg) (LOCATION cfg) = Some (cls, msg) →
  exit_status o = 1%Z ∧
  stderr (final o)
    = [ "Error initializing Vertex AI. Did you set GOOGLE_APPLICATION_CREDENTIALS?";
        "Details: " +:+ msg ] ∧
  stdout (final o) = [] ∧ fs (final o) = files ∧
  trace (final o) = [EvInit (PROJECT_ID cfg) (LOCATION cfg)].
Proof.
  intros Hinit. subst o.
  rewrite (run_exit _ _
             (logged [EvInit (PROJECT_ID cfg) (LOCATION cfg)]
                ["Error initializing Vertex AI. Did you set GOOGLE_APPLICATION_CREDENTIALS?";
                 "Details: " +:+ msg] (start files)) 1).
  - by cbn.
  - rewrite upscale_image_split. unfold mbind, obtain, mbind.
    by rewrite connect_eq, Hinit.
Qed.

(** Lines 33 to 35: the model handle is built outside any [try]; when
    that raises, the exception reaches the interpreter: status 1 and a
    traceback, with no file opened and nothing sent. *)
Theorem model_failure_is_uncaught cls msg :
  init_fault env (PROJECT_ID cfg) (LOCATION cfg) = None →
  model_fault env (model_resource cfg) = Some (cls, msg) →
  exit_status o = 1%Z ∧
  stderr (final o)
    = [ "Traceback (most recent call last):"; class_name cls +:+ ": " +:+ msg ] ∧
  stdout (final o) = [] ∧ fs (final o) = files ∧
  trace (final o) = [ EvInit (PROJECT_ID cfg) (LOCATION cfg);
                      EvModel (model_resource cfg) ].
Proof.
  intros Hinit Hmodel. subst o.
  rewrite (run_error _ _
             (logged [EvInit (PROJECT_ID cfg) (LOCATION cfg);
                      EvModel (model_resource cfg)] [] (start files)) cls msg).
  - by cbn.
  - rewrite upscale_image_split. unfold mbind, obtain, mbind.
    by rewrite connect_eq, Hinit, Hmodel.
Qed.

(** Lines 58 to 74: when the call to the service raises, the run ends
    with status 1; the error stream holds the progress line, the message of
    the exception and the permissions hint; no file is written. *)
Theorem remote_failure_is_fatal image_bytes cls msg :
  connects cfg env →
  readable env files source_path image_bytes →
  predict env [instance (b64encode image_bytes)] (parameters factor) = inl (cls, msg) →
  exit_status o = 1%Z ∧
  stderr (final o)
    = [ sending source_path factor;
        "Error during API call: " +:+ msg;
        "Please ensure Vertex AI API is enabled and your account has permissions." ] ∧
  stdout (final o) = [] ∧ fs (final o) = files ∧
  trace (final o)
    = [ EvInit (PROJECT_ID cfg) (LOCATION cfg);
        EvModel (model_resource cfg);
        EvOpenRead source_path;
        EvPredict [instance (b64encode image_bytes)] (parameters factor) ].
Proof.
  intros Hconn Hread Hp. subst o.
  rewrite (run_exit _ _
             (logged [EvPredict [instance (b64encode image_bytes)] (parameters factor)]
                [sending source_path factor; "Error during API call: " +:+ msg;
                 permissions_hint]
                (logged [EvInit (PROJECT_ID cfg) (LOCATION cfg);
                         EvModel (model_resource cfg);
                         EvOpenRead source_path] [] (start files))) 1).
  - by cbn.
  - rewrite upscale_image_split. unfold mbind.
    rewrite (obtain_reaches cfg env source_path factor (start files) image_bytes)
      by done.
    by rewrite (call_and_decode_raises env source_path factor _ _ cls msg).
Qed.

(** Lines 64 to 74: a first prediction that has the image field, with a
    value that [b64decode] refuses (not a string, not ASCII, wrong padding),
    ends the run like a failed call: status 1, the message of the decoder
    after "Error during API call: ", no file written. *)
Theorem undecodable_payload_is_fatal image_bytes v cls msg :
  connects cfg env →
  readable env files source_path image_bytes →
  answers_with env image_bytes factor v →
  b64decode v = raise (Error cls msg) →
  exit_status o = 1%Z ∧
  stderr (final o)
    = [ sending source_path factor;
        "Error during API call: " +:+ msg;
        "Please ensure Vertex AI API is enabled and your account has permissions." ] ∧
  stdout (final o) = [] ∧ fs (final o) = files.
Proof.
  intros Hconn Hread (response & d & rest & Hp & Hcons & Hd) Hdec. subst o.
  rewrite (run_exit _ _
             (logged [EvPredict [instance (b64encode image_bytes)] (parameters factor)]
                [sending source_path factor; "Error during API call: " +:+ msg;
                 permissions_hint]
                (logged [EvInit (PROJECT_ID cfg) (LOCATION cfg);
                         EvModel (model_resource cfg);
                         EvOpenRead source_path] [] (start files))) 1).
  - by cbn.
  - rewrite upscale_image_split. unfold mbind.
    rewrite (obtain_reaches cfg env source_path factor (start files) image_bytes)
      by done.
    unfold call_and_decode, model_predict, py_first, py_contains, py_getitem.
    unfold_py. cbn. rewrite Hp. cbn. rewrite Hcons. cbn. rewrite Hd. cbn.
    rewrite Hdec. unfold raise. cbn. same_world.
Qed.

End Early.

(* --------------------------------------------------------------------- *)
(** ** Saving and reporting *)

Section Saving.
Context (env : Env) (source_path factor : string).

Let primary := primary_path env source_path factor.
Let fallback := fallback_path env source_path factor.
Let dir := target_dir env source_path.

(** The target takes the file. *)
Lemma save_primary_ok data w :
  access_W_OK env dir = true →
  write_fault env primary = None →
  save env source_path factor data w =
  (Val primary,
   wrote (resolve env primary) data (logged [EvAccess dir; EvOpenWrite primary] [] w)).
Proof.
  intros Hacc Hwf. unfold save, os_access, write_file. unfold_py.
  subst primary dir. cbn. rewrite Hacc. cbn. rewrite Hwf. cbn. same_world.
Qed.

(** The attempt on the target fails with something that is no [OSError]:
    the clause of the fallback does not apply. *)
Lemma save_uncaught data w cls msg :
  access_W_OK env dir = true →
  write_fault env primary = Some (cls, msg) →
  except_OSError (Error cls msg) = false →
  save env source_path factor data w =
  (Exc (Error cls msg), logged [EvAccess dir; EvOpenWrite primary] [] w).
Proof.
  intros Hacc Hwf Hos. unfold save, os_access, write_file. unfold_py.
  subst primary dir. cbn. rewrite Hacc. cbn. rewrite Hwf. cbn.
  assert (match cls with
          | FileNotFoundError | PermissionError | OSError => true
          | _ => false
          end = false) as -> by exact Hos.
  rewrite (failed_write_other env _ data (fs w) cls msg) by done.
  same_world.
Qed.

(** [os.access] refuses the target: no attempt is made on it. *)
Lemma save_refused data w :
  access_W_OK env dir = false →
  write_fault env fallback = None →
  save env source_path factor data w =
  (Val fallback,
   wrote (resolve env fallback) data
     (logged [EvAccess dir; EvOpenWrite fallback]
        (fallback_warning env source_path factor) w)).
Proof.
  intros Hacc Hwf. unfold save, os_access, write_file. unfold_py.
  subst fallback dir. cbn. rewrite Hacc. cbn. rewrite Hwf. cbn. same_world.
Qed.

(** The external calls of step 8, whatever its result. *)
Lemma save_attempts data w :
  ∃ paths,
    (paths = [primary] ∨ paths = [fallback] ∨ paths = [primary; fallback]) ∧
    trace (snd (save env source_path factor data w))
    = trace w ++ EvAccess dir :: map EvOpenWrite paths.
Proof.
  unfold save, os_access, write_file. unfold_py. subst primary fallback dir. cbn.
  destruct (access_W_OK env (target_dir env source_path)); cbn.
  - destruct (write_fault env (primary_path env source_path factor))
      as [[cls msg]|]; cbn.
    + destruct cls; cbn;
        try (eexists; split; [left; reflexivity|]; cbn;
             by rewrite <- ?app_assoc);
        destruct (write_fault env (fallback_path env source_path factor))
          as [[cls2 msg2]|]; cbn;
        eexists; (split; [right; right; reflexivity|]); cbn;
        by rewrite <- ?app_assoc.
    + eexists; split; [left; reflexivity|]. cbn. by rewrite <- ?app_assoc.
  - destruct (write_fault env (fallback_path env source_path factor))
      as [[cls2 msg2]|]; cbn;
      eexists; (split; [right; left; reflexivity|]); cbn;
      by rewrite <- ?app_assoc.
Qed.

(** The place of the file is decided by the environment. *)
Lemma saved_at_functional out warning out' warning' :
  saved_at env source_path factor out warning →
  saved_at env source_path factor out' warning' →
  out = out' ∧ warning = warning'.
Proof.
  intros [(-> & -> & Hacc & Hwf)|(-> & -> & Hnw & Hwf)]
         [(-> & -> & Hacc' & Hwf')|(-> & -> & Hnw' & Hwf')]; try done.
  - destruct Hnw' as [Hno|(cls & msg & Hno & _)]; congruence.
  - destruct Hnw as [Hno|(cls & msg & Hno & _)]; congruence.
Qed.

(** Saving and reporting go through when the file finds a place and the
    bytes are an image. *)
Lemma finish_saved data w out warning width height :
  saved_at env source_path factor out warning →
  image_size env data = inr (width, height) →
  ∃ paths,
    finish env source_path factor data w =
    (Val tt,
     printed (report_lines env source_path out (N.of_nat (length data)) width height)
       (refiled (<[resolve env out := data]>
                   (primary_residue env source_path factor data (fs w)))
          (logged ((EvAccess dir :: map EvOpenWrite paths) ++ [EvGetsize out])
             warning w))).
Proof.
  intros Hat Himg.
  destruct (finish_cases env source_path factor data w)
    as (paths & [(out' & warning' & Hat' & Hfin)
                |[(cls & msg & Hnw & Hwf & _)|(cls & msg & Hacc & Hwf & Hos & _)]]).
  - destruct (saved_at_functional _ _ _ _ Hat Hat') as [<- <-].
    rewrite Himg in Hfin. by exists paths.
  - destruct Hat as [(_ & _ & Hacc & Hwf')|(_ & _ & _ & Hwf')]; [|congruence].
    destruct Hnw as [Hno|(cls' & msg' & Hno & _)]; congruence.
  - destruct Hat as [(_ & _ & _ & Hwf')|(_ & _ & Hnw & _)]; [congruence|].
    destruct Hnw as [Hno|(cls' & msg' & Hno & Hos')]; [congruence|].
    rewrite Hwf in Hno. injection Hno as <- <-. congruence.
Qed.

End Saving.

(* --------------------------------------------------------------------- *)
(** ** Every run *)

Section EveryRun.
Context (cfg : Config) (env : Env) (source_path factor : string).
Context (files : gmap string (list byte)).

Let o := run (upscale_image cfg env source_path factor) (start files).
Let primary := primary_path env source_path factor.
Let fallback := fallback_path env source_path factor.

(** The external calls of steps 1 to 6 are a beginning of: connect, look
    up the model, open the source, send the request; all four when the
    bytes are obtained. *)
Lemma obtain_calls w r w1 :
  obtain cfg env source_path factor w = (r, w1) →
  ∃ enc k,
    (1 ≤ k ≤ 4)%nat ∧
    (∀ data, r = Val data → k = 4%nat) ∧
    trace w1 = trace w ++
      take k [ EvInit (PROJECT_ID cfg) (LOCATION cfg);
               EvModel (model_resource cfg);
               EvOpenRead source_path;
               EvPredict [instance enc] (parameters factor) ].
Proof.
  unfold obtain, mbind. rewrite connect_eq.
  destruct (init_fault env _ _) as [[cls msg]|].
  { intros [= <- <-]. exists "", 1%nat. split; [lia|]. by split. }
  destruct (model_fault env _) as [[cls msg]|].
  { intros [= <- <-]. exists "", 2%nat. split; [lia|]. by split. }
  rewrite read_and_encode_eq, fs_logged.
  destruct (read_fault env source_path) as [[cls msg]|].
  { intros [= <- <-]. exists "", 3%nat. split; [lia|]. split; [done|].
    cbn. by rewrite <- app_assoc. }
  destruct (fs w !! resolve env source_path) as [image_bytes|].
  2: { intros [= <- <-]. exists "", 3%nat. split; [lia|]. split; [done|].
       cbn. by rewrite <- app_assoc. }
  intros Hcall. apply call_and_decode_frame in Hcall as (_ & _ & Htr & _).
  exists (b64encode image_bytes), 4%nat. split; [lia|]. split; [done|].
  rewrite Htr. cbn. by rewrite <- !app_assoc.
Qed.

(** All the ways in which a run can end. *)
Lemma run_cases :
  (∃ e, fst (obtain cfg env source_path factor (start files)) = Exc e ∧
        exit_status o = 1%Z ∧ fs (final o) = files ∧ stdout (final o) = [])
  ∨ ∃ data,
      fst (obtain cfg env source_path factor (start files)) = Val data ∧
      ((∃ out warning,
          saved_at env source_path factor out warning ∧
          fs (final o)
            = <[resolve env out := data]>
                (primary_residue env source_path factor data files) ∧
          ((∃ width height,
              image_size env data = inr (width, height) ∧
              exit_status o = 0%Z ∧
              stdout (final o)
                = report_lines env source_path out (N.of_nat (length data))
                    width height ∧
              stderr (final o) = sending source_path factor :: warning)
           ∨ (∃ cls msg,
                image_size env data = inl (cls, msg) ∧
                exit_status o = 1%Z ∧ stdout (final o) = [] ∧
                stderr (final o)
                  = sending source_path factor :: warning ++ traceback cls msg)))
       ∨ (∃ cls msg,
            not_writable env source_path factor ∧
            write_fault env fallback = Some (cls, msg) ∧
            exit_status o = 1%Z ∧
            fs (final o)
              = failed_write env fallback data
                  (primary_residue env source_path factor data files) ∧
            stdout (final o) = [] ∧
            stderr (final o)
              = sending source_path factor
                :: fallback_warning env source_path factor
                ++ ["Error: Could not write to current working directory either: "
                    +:+ msg])
       ∨ (∃ cls msg,
            access_W_OK env (target_dir env source_path) = true ∧
            write_fault env primary = Some (cls, msg) ∧
            except_OSError (Error cls msg) = false ∧
            exit_status o = 1%Z ∧ fs (final o) = files ∧ stdout (final o) = [] ∧
            stderr (final o) = sending source_path factor :: traceback cls msg)).
Proof.
  subst o primary fallback. unfold run. rewrite upscale_image_split. unfold mbind.
  destruct (obtain cfg env source_path factor (start files))
    as [[data|e] w1] eqn:Hob.
  - right. exists data. split; [done|].
    apply obtain_inv in Hob
      as (image_bytes & response & d & rest & payload
          & _ & _ & _ & _ & _ & _ & _ & ->).
    match goal with
    | |- context [finish env source_path factor data ?w0] =>
        destruct (finish_cases env source_path factor data w0)
          as (paths & [(out & warning & Hat & Hfin)
                      |[(cls & msg & Hnw & Hwf & Hfin)
                       |(cls & msg & Hacc & Hwf & Hos & Hfin)]])
    end.
    + left. exists out, warning. split; [done|].
      destruct (image_size env data) as [[cls msg]|[width height]];
        rewrite Hfin;
        cbn [fs final exit_status stderr stdout trace printed refiled logged start app].
      * split; [done|]. right. exists cls, msg. repeat split; done.
      * split; [done|]. left. by exists width, height.
    + right. left. exists cls, msg. rewrite Hfin.
      cbn [fs final exit_status stderr stdout trace printed refiled logged start app].
      repeat split; done.
    + right. right. exists cls, msg. rewrite Hfin.
      cbn [fs final exit_status stderr stdout trace printed refiled logged start app].
      repeat split; done.
  - left. exists e. split; [done|].
    apply obtain_exc in Hob as ([->|(cls & msg & ->)] & Hfs & Hout); cbn;
      rewrite Hfs, Hout; done.
Qed.

(** A file that is at neither output path is after the run what it was
    before. *)
Lemma run_frame k :
  k ≠ resolve env primary → k ≠ resolve env fallback →
  fs (final o) !! k = files !! k.
Proof.
  intros Hk1 Hk2.
  destruct run_cases
    as [(e & _ & _ & Hfs & _)
       |(data & Hob & [(out & warning & Hat & Hfs & _)
                      |[(cls & msg & _ & _ & _ & Hfs & _)
                       |(cls & msg & _ & _ & _ & _ & Hfs & _)]])];
    rewrite Hfs; try done; subst primary fallback.
  - rewrite lookup_insert_ne
      by (destruct Hat as [(-> & _)|(-> & _)]; congruence).
    by apply primary_residue_lookup_ne.
  - rewrite failed_write_lookup_ne by exact Hk2.
    by apply primary_residue_lookup_ne.
Qed.

End EveryRun.

(** Steps 1 to 6 deliver the bytes when every step has what it needs. *)
Lemma obtain_ok cfg env source_path factor w image_bytes payload data :
  connects cfg env →
  readable env (fs w) source_path image_bytes →
  answers_with env image_bytes factor (PyStr payload) →
  b64decode (PyStr payload) = mret data →
  obtain cfg env source_path factor w =
  (Val data,
   logged [ EvInit (PROJECT_ID cfg) (LOCATION cfg);
            EvModel (model_resource cfg);
            EvOpenRead source_path;
            EvPredict [instance (b64encode image_bytes)] (parameters factor) ]
     [sending source_path factor] w).
Proof.
  intros Hconn Hread (response & d & rest & Hp & Hcons & Hd)
         [Ha Hdec]%b64decode_mret_inv.
  rewrite (obtain_reaches cfg env source_path factor w image_bytes) by done.
  rewrite (call_and_decode_ok env source_path factor _ _ response d rest payload data)
    by done.
  f_equal. same_world.
Qed.

Section Endings.
Context (cfg : Config) (env : Env) (source_path factor : string).
Context (files : gmap string (list byte)).

Let o := run (upscale_image cfg env source_path factor) (start files).
Let primary := primary_path env source_path factor.
Let fallback := fallback_path env source_path factor.

(** Lines 18 to 116: a run of [upscale_image] ends with status 0 or 1,
    and a run that does not end with 0 has printed nothing on standard
    output. *)
Theorem exit_status_and_stdout :
  (exit_status o = 0%Z ∨ exit_status o = 1%Z) ∧
  (exit_status o ≠ 0%Z → stdout (final o) = []).
Proof.
  destruct (run_cases cfg env source_path factor files)
    as [(e & _ & Hexit & _ & Hout)
       |(data & _ & [(out & warning & _ & _
                      & [(width & height & _ & Hexit & Hout & _)
                        |(cls & msg & _ & Hexit & Hout & _)])
                    |[(cls & msg & _ & _ & Hexit & _ & Hout & _)
                     |(cls & msg & _ & _ & _ & Hexit & _ & Hout & _)]])];
    fold o in Hexit, Hout; rewrite Hexit; split; auto; done.
Qed.

(** Lines 85 to 103: a run changes no file other than the ones at the
    primary and at the fallback path; a run that does not obtain the payload
    changes no file at all and does not reach step 8 ([os.access], [open]
    for writing, [os.path.getsize]). *)
Theorem only_output_files_change :
  (∀ k, k ≠ resolve env primary → k ≠ resolve env fallback →
        fs (final o) !! k = files !! k)
  ∧ (∀ e, fst (obtain cfg env source_path factor (start files)) = Exc e →
       fs (final o) = files ∧
       List.filter is_save_step (trace (final o)) = []).
Proof.
  split.
  - intros k Hk1 Hk2. by apply run_frame.
  - intros e He.
    destruct (run_cases cfg env source_path factor files)
      as [(e' & _ & _ & Hfs & _)|(data & Hob & _)]; [|congruence].
    split; [exact Hfs|].
    subst o. rewrite run_trace, upscale_image_split. unfold mbind.
    destruct (obtain cfg env source_path factor (start files))
      as [r w1] eqn:Hob. cbn in He. subst r.
    apply obtain_calls in Hob as (enc & k & Hk & _ & Htr).
    cbn [snd]. rewrite Htr.
    destruct k as [|[|[|[|[|k]]]]]; try lia; reflexivity.
Qed.

(** Lines 105 to 110: nothing catches a failure of [Image.open].  When
    the decoded bytes are not an image that the library can open, the file
    has been written and stays (the output path holds the bytes), nothing is
    printed on standard output, and the run ends with status 1 and a
    traceback. *)
Theorem image_failure_after_write data out warning cls msg :
  fst (obtain cfg env source_path factor (start files)) = Val data →
  saved_at env source_path factor out warning →
  image_size env data = inl (cls, msg) →
  exit_status o = 1%Z ∧
  fs (final o) !! resolve env out = Some data ∧
  stdout (final o) = [] ∧
  stderr (final o)
    = sending source_path factor :: warning
      ++ [ "Traceback (most recent call last):"; class_name cls +:+ ": " +:+ msg ].
Proof.
  intros Hob Hat Himg.
  destruct (run_cases cfg env source_path factor files)
    as [(e & Hob' & _)
       |(data' & Hob' & [(out' & warning' & Hat' & Hfs
                          & [(width & height & Himg' & _)
                            |(cls' & msg' & Himg' & Hexit & Hout & Herr)])
                        |[(cls' & msg' & Hnw & Hwf & _)
                         |(cls' & msg' & Hacc & Hwf & Hos & _)]])];
    try congruence; rewrite Hob in Hob'; injection Hob' as <-.
  - destruct (saved_at_functional _ _ _ _ _ _ _ Hat Hat') as [<- <-].
    rewrite Himg in Himg'. injection Himg' as <- <-.
    fold o in Hfs. split; [done|]. split; [|done].
    rewrite Hfs. apply lookup_insert_eq.
  - destruct Hat as [(_ & _ & Hacc & Hwf')|(_ & _ & _ & Hwf')]; [|congruence].
    destruct Hnw as [Hno|(cls2 & msg2 & Hno & _)]; congruence.
  - destruct Hat as [(_ & _ & _ & Hwf')|(_ & _ & Hnw & _)]; [congruence|].
    destruct Hnw as [Hno|(cls2 & msg2 & Hno & Hos')]; [congruence|].
    rewrite Hwf in Hno. injection Hno as <- <-. congruence.
Qed.

(** Lines 85 to 93: the fallback is for [PermissionError] and [OSError]
    only.  When the attempt on the target fails with another exception, the
    working directory is not tried: the run ends with status 1 and a
    traceback, there is no warning, and no file is written. *)
Theorem other_write_error_is_uncaught data cls msg :
  fst (obtain cfg env source_path factor (start files)) = Val data →
  access_W_OK env (target_dir env source_path) = true →
  write_fault env primary = Some (cls, msg) →
  except_OSError (Error cls msg) = false →
  exit_status o = 1%Z ∧
  fs (final o) = files ∧
  stdout (final o) = [] ∧
  stderr (final o)
    = [ sending source_path factor;
        "Traceback (most recent call last):"; class_name cls +:+ ": " +:+ msg ] ∧
  List.filter is_open_write (trace (final o)) = [EvOpenWrite primary].
Proof.
  intros Hob Hacc Hwf Hos. subst o primary.
  destruct (obtain cfg env source_path factor (start files)) as [r w1] eqn:Hobt.
  cbn in Hob. subst r.
  pose proof Hobt as Hinv. apply obtain_inv in Hinv
    as (image_bytes & response & d & rest & payload
        & _ & _ & _ & _ & _ & _ & _ & Hw1).
  rewrite (run_error _ _
             (logged [EvAccess (target_dir env source_path);
                      EvOpenWrite (primary_path env source_path factor)] [] w1)
             cls msg).
  - rewrite Hw1. by cbn.
  - rewrite upscale_image_split. unfold mbind. rewrite Hobt.
    unfold finish, mbind.
    by rewrite (save_uncaught env source_path factor data w1 cls msg).
Qed.

(** Lines 18 to 116, the plain case.  With a connection, a readable
    source, a first prediction whose image field decodes, a target that
    takes the file and bytes that are an image, the run ends with status 0;
    its external calls are, in this order: connect, look up the model, open
    the source, send the request, ask [os.access], open the output, ask its
    size; the error stream holds the progress line only. *)
Theorem straight_run image_bytes payload data width height :
  connects cfg env →
  readable env files source_path image_bytes →
  answers_with env image_bytes factor (PyStr payload) →
  b64decode (PyStr payload) = mret data →
  access_W_OK env (target_dir env source_path) = true →
  write_fault env primary = None →
  image_size env data = inr (width, height) →
  exit_status o = 0%Z ∧
  trace (final o) = straight_calls cfg env source_path factor image_bytes ∧
  stderr (final o) = [sending source_path factor] ∧
  stdout (final o)
    = report_lines env source_path primary (N.of_nat (length data)) width height ∧
  fs (final o) = <[resolve env primary := data]> files.
Proof.
  intros Hconn Hread Hans Hdec Hacc Hwf Himg. subst o primary.
  rewrite (run_val _ _
    (printed (report_lines env source_path (primary_path env source_path factor)
                (N.of_nat (length data)) width height)
       (wrote (resolve env (primary_path env source_path factor)) data
          (logged (straight_calls cfg env source_path factor image_bytes)
             [sending source_path factor] (start files))))).
  - by cbn.
  - rewrite upscale_image_split. unfold mbind.
    rewrite (obtain_ok cfg env source_path factor (start files)
               image_bytes payload data) by done.
    unfold finish, mbind.
    rewrite (save_primary_ok env source_path factor data) by done.
    rewrite (report_eq env source_path _ data data)
      by (cbn; apply lookup_insert_eq).
    rewrite Himg. f_equal; same_world.
Qed.

(** Lines 18 to 116: what it takes to end with status 0.  A run succeeds
    exactly when the connection is made, the source is read, the first
    prediction is an object whose image field is a string that decodes, the
    file finds a place (the target, or else the working directory), and the
    decoded bytes are an image. *)
Theorem success_iff :
  exit_status o = 0%Z ↔
  ∃ image_bytes payload data out warning size,
    connects cfg env ∧
    readable env files source_path image_bytes ∧
    answers_with env image_bytes factor (PyStr payload) ∧
    b64decode (PyStr payload) = mret data ∧
    saved_at env source_path factor out warning ∧
    image_size env data = inr size.
Proof.
  split.
  - intros Hok.
    destruct (run_cases cfg env source_path factor files)
      as [(e & _ & Hexit & _)
         |(data & Hob & [(out & warning & Hat & _
                          & [(width & height & Himg & _)
                            |(cls & msg & _ & Hexit & _)])
                        |[(cls & msg & _ & _ & Hexit & _)
                         |(cls & msg & _ & _ & _ & Hexit & _)]])];
      try (fold o in Hexit; congruence).
    destruct (obtain cfg env source_path factor (start files)) as [r w1] eqn:Hobt.
    cbn in Hob. subst r.
    apply obtain_inv in Hobt
      as (image_bytes & response & d & rest & payload
          & Hconn & Hread & Hp & Hcons & Hd & Ha & Hdec & _).
    exists image_bytes, payload, data, out, warning, (width, height).
    split; [done|]. split; [done|]. split; [by exists response, d, rest|].
    split; [unfold b64decode; by rewrite Ha, Hdec|]. by split.
  - intros (image_bytes & payload & data & out & warning & [width height]
            & Hconn & Hread & Hans & Hdec & Hat & Himg).
    subst o.
    destruct (finish_saved env source_path factor data
                (logged [ EvInit (PROJECT_ID cfg) (LOCATION cfg);
                          EvModel (model_resource cfg);
                          EvOpenRead source_path;
                          EvPredict [instance (b64encode image_bytes)]
                            (parameters factor) ]
                   [sending source_path factor] (start files))
                out warning width height Hat Himg) as [paths Hfin].
    unfold run. rewrite upscale_image_split. unfold mbind.
    rewrite (obtain_ok cfg env source_path factor (start files)
               image_bytes payload data) by done.
    by rewrite Hfin.
Qed.

End Endings.

(* --------------------------------------------------------------------- *)
(** ** The order of the external calls *)

Lemma report_trace env source_path out data w :
  trace (snd (report env source_path out data w)) = trace w ++ [EvGetsize out].
Proof.
  unfold report, os_path_getsize, Image_open_size. unfold_py. cbn.
  destruct (fs w !! resolve env out); [|done].
  by destruct (image_size env data) as [[cls msg]|[width height]].
Qed.

Lemma finish_calls env source_path factor data w :
  ∃ paths rest,
    (paths = [primary_path env source_path factor] ∨
     paths = [fallback_path env source_path factor] ∨
     paths = [primary_path env source_path factor;
              fallback_path env source_path factor]) ∧
    (rest = [] ∨ ∃ out, rest = [EvGetsize out]) ∧
    trace (snd (finish env source_path factor data w))
    = trace w ++ EvAccess (target_dir env source_path)
                 :: map EvOpenWrite paths ++ rest.
Proof.
  destruct (save_attempts env source_path factor data w) as (paths & Hpaths & Htr).
  unfold finish, mbind.
  destruct (save env source_path factor data w) as [[out|e] w2]; cbn [snd] in *.
  - exists paths, [EvGetsize out]. split; [done|]. split; [eauto|].
    rewrite report_trace, Htr. by rewrite <- app_assoc.
  - exists paths, []. split; [done|]. split; [auto|].
    by rewrite Htr, app_nil_r.
Qed.

(** Lines 18 to 116: in every run the external calls come in the order of
    the steps, none is made before the ones of the earlier steps, and none
    is repeated except the attempt to open the output: connect, look up the
    model, open the source, send the request, ask [os.access], open the
    output (once or twice), ask the size.  A run stops somewhere along
    this line. *)
Theorem calls_in_order cfg env source_path factor files :
  let steps :=
    map phase (trace (final (run (upscale_image cfg env source_path factor)
                               (start files)))) in
  steps `prefix_of` [1; 2; 3; 4; 5; 6; 7]%nat ∨
  steps `prefix_of` [1; 2; 3; 4; 5; 6; 6; 7]%nat.
Proof.
  cbv zeta. rewrite run_trace, upscale_image_split. unfold mbind.
  destruct (obtain cfg env source_path factor (start files))
    as [[data|e] w1] eqn:Hob;
    apply obtain_calls in Hob as (enc & k & Hk & Hfull & Htr); cbn [snd].
  - rewrite (Hfull data eq_refl) in Htr. cbn in Htr.
    destruct (finish_calls env source_path factor data w1)
      as (paths & rest & Hpaths & Hrest & Hfin).
    rewrite Hfin, Htr.
    destruct Hpaths as [-> | [-> | ->]], Hrest as [-> | [out ->]]; cbn;
      first [ left; by eexists | right; by eexists ].
  - rewrite Htr. left.
    destruct k as [|[|[|[|[|k]]]]]; try lia; cbn; by eexists.
Qed.

(* --------------------------------------------------------------------- *)
(** ** The source file, and running again *)

(** A run that has the bytes, a place for the file and an image. *)
Lemma run_saved cfg env source_path factor files data out warning width height :
  fst (obtain cfg env source_path factor (start files)) = Val data →
  saved_at env source_path factor out warning →
  image_size env data = inr (width, height) →
  let o := run (upscale_image cfg env source_path factor) (start files) in
  exit_status o = 0%Z ∧
  fs (final o)
    = <[resolve env out := data]> (primary_residue env source_path factor data files) ∧
  stdout (final o)
    = report_lines env source_path out (N.of_nat (length data)) width height ∧
  stderr (final o) = sending source_path factor :: warning.
Proof.
  intros Hob Hat Himg o. subst o.
  destruct (obtain cfg env source_path factor (start files)) as [r w1] eqn:Hobt.
  cbn in Hob. subst r.
  pose proof Hobt as Hinv. apply obtain_inv in Hinv
    as (image_bytes & response & d & rest & payload
        & _ & _ & _ & _ & _ & _ & _ & Hw1).
  destruct (finish_saved env source_path factor data w1 out warning width height
              Hat Himg) as [paths Hfin].
  unfold run. rewrite upscale_image_split. unfold mbind. rewrite Hobt, Hfin, Hw1.
  by cbn.
Qed.

(** Lines 77 to 83: for a factor without a slash ([x2] and [x4] are
    such), the last component of both output paths is the output name,
    which is longer than the name of the source; so neither output path is
    the source path.  When in addition neither output path leads to the file
    of the source by a link, that file holds after any run what it held
    before. *)
Theorem output_paths_are_not_the_source cfg env source_path factor files :
  lacks posixpath.sep factor = true →
  let o := run (upscale_image cfg env source_path factor) (start files) in
  posixpath.basename (primary_path env source_path factor)
    = output_filename source_path factor ∧
  posixpath.basename (fallback_path env source_path factor)
    = output_filename source_path factor ∧
  output_filename source_path factor ≠ posixpath.basename source_path ∧
  primary_path env source_path factor ≠ source_path ∧
  fallback_path env source_path factor ≠ source_path ∧
  (resolve env (primary_path env source_path factor) ≠ resolve env source_path →
   resolve env (fallback_path env source_path factor) ≠ resolve env source_path →
   fs (final o) !! resolve env source_path = files !! resolve env source_path).
Proof.
  intros Hf o. subst o.
  pose proof (output_filename_lacks_sep source_path factor Hf) as Hname.
  destruct (output_path_not_source env source_path factor Hf) as [Hp Hfb].
  split; [by apply basename_join|]. split; [by apply basename_join|]. split.
  - intros Heq. apply (f_equal String.length) in Heq.
    rewrite output_filename_length in Heq. lia.
  - split; [exact Hp|]. split; [exact Hfb|].
    intros Hrp Hrfb. apply run_frame; congruence.
Qed.

(** Lines 18 to 116: running again is harmless, as long as the environment
    answers the second run as it answered the first and neither output path
    leads to the file of the source.  After a run that ended with status 0,
    the same invocation on the files that the run left ends with status 0
    again, prints the same lines and leaves the files as they are. *)
Theorem rerun_changes_nothing cfg env source_path factor files :
  resolve env (primary_path env source_path factor) ≠ resolve env source_path →
  resolve env (fallback_path env source_path factor) ≠ resolve env source_path →
  let o := run (upscale_image cfg env source_path factor) (start files) in
  exit_status o = 0%Z →
  let o' := run (upscale_image cfg env source_path factor) (start (fs (final o))) in
  exit_status o' = 0%Z ∧
  fs (final o') = fs (final o) ∧
  stdout (final o') = stdout (final o) ∧
  stderr (final o') = stderr (final o).
Proof.
  intros Hp Hfb o Hok o'. subst o o'.
  destruct (run_cases cfg env source_path factor files)
    as [(e & _ & Hexit & _)
       |(data & Hob & [(out & warning & Hat & Hfs
                        & [(width & height & Himg & _ & Hout & Herr)
                          |(cls & msg & _ & Hexit & _)])
                      |[(cls & msg & _ & _ & Hexit & _)
                       |(cls & msg & _ & _ & _ & Hexit & _)]])];
    try congruence.
  destruct (obtain cfg env source_path factor (start files)) as [r w1] eqn:Hobt.
  cbn in Hob. subst r.
  apply obtain_inv in Hobt
    as (image_bytes & response & d & rest & payload
        & Hconn & [Hfile Hfault] & Hp' & Hcons & Hd & Ha & Hdec & _).
  cbn [fs start] in Hfile.
  assert (resolve env out ≠ resolve env source_path) as Hne
    by (destruct Hat as [(-> & _)|(-> & _)]; done).
  rewrite Hfs, Hout, Herr.
  destruct (run_saved cfg env source_path factor
              (<[resolve env out := data]>
                 (primary_residue env source_path factor data files))
              data out warning width height) as (Hexit' & Hfs' & Hout' & Herr');
    [|done|done|].
  - rewrite (obtain_ok cfg env source_path factor _ image_bytes payload data);
      [done|done| |by exists response, d, rest|].
    + split; [|done]. cbn [fs start].
      rewrite lookup_insert_ne by exact Hne.
      by rewrite primary_residue_lookup_ne by congruence.
    + unfold b64decode. by rewrite Ha, Hdec.
  - rewrite Hexit', Hfs', Hout', Herr'.
    by rewrite primary_residue_again.
Qed.


(* --------------------------------------------------------------------- *)
(** ** The command line, continued *)

(** Lines 119 to 137: on a command line of positional words,
    [parse_args] hands over two values exactly when there are two words and
    the second is [x2] or [x4], and then it prints nothing; on every other
    such command line it prints the usage and a message on the error stream
    and leaves with status 2. *)
Theorem parse_args_accepts_exactly env argv w :
  existsb is_option_syntax argv = false →
  (∀ source_image upscale_factor w',
     parse_args env argv w = (Val (source_image, upscale_factor), w') ↔
     argv = [source_image; upscale_factor] ∧ upscale_factor ∈ choices ∧ w' = w)
  ∧ ((∀ source_image upscale_factor,
        argv = [source_image; upscale_factor] → upscale_factor ∉ choices) →
     ∃ message,
       parse_args env argv w =
       (Exc (SystemExit 2),
        logged [] [usage env; prog env +:+ ": error: " +:+ message] w)).
Proof.
  intros Hwords. unfold parse_args. rewrite Hwords.
  destruct argv as [|s [|f extra]].
  - split.
    + intros s f w'. split; [|by intros ([=] & _)].
      unfold parser_error. unfold_py. by cbn.
    + intros _. eexists. unfold parser_error. unfold_py. cbn. same_world.
  - split.
    + intros s' f w'. split; [|by intros ([=] & _)].
      unfold parser_error. unfold_py. by cbn.
    + intros _. eexists. unfold parser_error. unfold_py. cbn. same_world.
  - destruct (bool_decide (f ∈ choices)) eqn:Hchoice.
    + apply bool_decide_eq_true in Hchoice. destruct extra as [|e extra].
      * split.
        -- intros s' f' w'. unfold mret. split.
           ++ by intros [= <- <- <-].
           ++ by intros ([= <- <-] & _ & ->).
        -- intros Hnone. by destruct (Hnone s f eq_refl).
      * split.
        -- intros s' f' w'. split; [|by intros ([=] & _)].
           unfold parser_error. unfold_py. by cbn.
        -- intros _. eexists. unfold parser_error. unfold_py. cbn. same_world.
    + apply bool_decide_eq_false in Hchoice. split.
      * intros s' f' w'. split.
        -- unfold parser_error. unfold_py. by cbn.
        -- by intros ([= <- <- ->] & Hin & _).
      * intros _. eexists. unfold parser_error. unfold_py. cbn. same_world.
Qed.


(* --------------------------------------------------------------------- *)
(** ** The base64 pair, continued *)

Lemma a2b_loop_filter s : ∀ quad_pos leftchar pads out,
  Base64.a2b_loop s quad_pos leftchar pads out
  = Base64.a2b_loop (str_filter b64_significant s) quad_pos leftchar pads out.
Proof.
  induction s as [|c s IH]; intros quad_pos leftchar pads out; [done|].
  cbn [str_filter]. unfold b64_significant.
  destruct (Ascii.eqb c Base64.PAD) eqn:Hpad.
  - cbn [orb Base64.a2b_loop]. rewrite Hpad.
    destruct (2 <=? quad_pos)%nat; [|apply IH].
    destruct (4 <=? quad_pos + S pads)%nat; [done|apply IH].
  - cbn [orb]. destruct (Base64.table_a2b c) as [v|] eqn:Hv;
      cbn [Base64.a2b_loop]; rewrite Hpad, Hv; [|apply IH].
    destruct quad_pos as [|[|[|q]]]; apply IH.
Qed.

Lemma all_ascii_filter keep s :
  Base64.all_ascii s = true → Base64.all_ascii (str_filter keep s) = true.
Proof.
  induction s as [|c s IH]; [done|]. cbn [Base64.all_ascii str_filter].
  intros [Hc Hs]%andb_true_iff. destruct (keep c); [|by apply IH].
  cbn [Base64.all_ascii]. by rewrite Hc, IH.
Qed.

(** Line 69: [b64decode] reads the characters of the alphabet and the pad
    and nothing else.  A payload with line breaks, blanks or any other
    ASCII characters in between decodes (or fails) like the payload without
    them. *)
Theorem b64decode_skips_other_characters payload :
  Base64.all_ascii payload = true →
  b64decode (PyStr payload) = b64decode (PyStr (str_filter b64_significant payload)).
Proof.
  intros Ha. unfold b64decode, Base64.a2b_base64.
  by rewrite Ha, (all_ascii_filter _ _ Ha), <- a2b_loop_filter.
Qed.

(** Line 41: the encoded image has four characters for every three bytes
    or part of three bytes, all of them ASCII (so that the [decode("utf-8")]
    on that line cannot fail), and different images give different
    encodings. *)
Theorem b64encode_shape data :
  String.length (b64encode data) = (4 * ((length data + 2) / 3))%nat ∧
  Base64.all_ascii (b64encode data) = true ∧
  (∀ data', b64encode data = b64encode data' → data = data').
Proof.
  split; [|split].
  - unfold b64encode.
    induction data as [|b1|b1 b2|b1 b2 b3 rest IH] using Base64Facts.list_ind3;
      try reflexivity.
    cbn [Base64.b2a_base64 String.length length]. rewrite IH.
    replace (S (S (S (length rest))) + 2)%nat with (length rest + 2 + 1 * 3)%nat
      by lia.
    rewrite Nat.div_add by done. lia.
  - apply Base64Facts.b2a_all_ascii.
  - intros data' Heq. apply (f_equal Base64.a2b_base64) in Heq.
    unfold b64encode in Heq. rewrite !Base64Facts.a2b_b2a in Heq.
    by injection Heq.
Qed.

(* --------------------------------------------------------------------- *)
(** ** The further properties on the sample machine *)

Lemma good_answers_with :
  answers_with good_env sample_picture "x2" (PyStr "TWFu").
Proof.
  exists {| predictions := [PyDict {[ "bytesBase64Encoded" := PyStr "TWFu" ]}] |},
    {[ "bytesBase64Encoded" := PyStr "TWFu" ]}, [].
  repeat split; reflexivity.
Qed.

Lemma init_failure_witness :
  exit_status (run (upscale_image sample_cfg nocreds_env "pics/cat.png" "x2")
                 (start sample_files)) = 1%Z ∧
  stderr (final (run (upscale_image sample_cfg nocreds_env "pics/cat.png" "x2")
                   (start sample_files)))
  = [ "Error initializing Vertex AI. Did you set GOOGLE_APPLICATION_CREDENTIALS?";
      "Details: Your default credentials were not found." ].
Proof.
  destruct (init_failure_is_fatal sample_cfg nocreds_env "pics/cat.png" "x2"
              sample_files (OtherException "DefaultCredentialsError")
              "Your default credentials were not found." eq_refl)
    as (Hexit & Herr & _).
  split; [exact Hexit|exact Herr].
Defined.

Lemma model_failure_witness :
  exit_status (run (upscale_image sample_cfg nomodel_env "pics/cat.png" "x2")
                 (start sample_files)) = 1%Z ∧
  stderr (final (run (upscale_image sample_cfg nomodel_env "pics/cat.png" "x2")
                   (start sample_files)))
  = [ "Traceback (most recent call last):";
      "NotFound: 404 Publisher Model not found" ].
Proof.
  destruct (model_failure_is_uncaught sample_cfg nomodel_env "pics/cat.png" "x2"
              sample_files (OtherException "NotFound")
              "404 Publisher Model not found" eq_refl eq_refl)
    as (Hexit & Herr & _).
  split; [exact Hexit|exact Herr].
Defined.

Lemma remote_failure_witness :
  exit_status (run (upscale_image sample_cfg down_env "pics/cat.png" "x2")
                 (start sample_files)) = 1%Z ∧
  fs (final (run (upscale_image sample_cfg down_env "pics/cat.png" "x2")
               (start sample_files))) = sample_files.
Proof.
  destruct (remote_failure_is_fatal sample_cfg down_env "pics/cat.png" "x2"
              sample_files sample_picture (OtherException "ServiceUnavailable")
              "503 backend unavailable")
    as (Hexit & _ & _ & Hfs & _).
  - split; reflexivity.
  - split; reflexivity.
  - reflexivity.
  - split; [exact Hexit|exact Hfs].
Defined.

Lemma undecodable_payload_witness :
  stderr (final (run (upscale_image sample_cfg truncated_env "pics/cat.png" "x2")
                   (start sample_files)))
  = [ sending "pics/cat.png" "x2";
      "Error during API call: Incorrect padding";
      "Please ensure Vertex AI API is enabled and your account has permissions." ].
Proof.
  destruct (undecodable_payload_is_fatal sample_cfg truncated_env "pics/cat.png" "x2"
              sample_files sample_picture (PyStr "TQ=") binascii_Error
              "Incorrect padding")
    as (_ & Herr & _).
  - split; reflexivity.
  - split; reflexivity.
  - exists {| predictions := [PyDict {[ "bytesBase64Encoded" := PyStr "TQ=" ]}] |},
      {[ "bytesBase64Encoded" := PyStr "TQ=" ]}, [].
    repeat split; reflexivity.
  - reflexivity.
  - exact Herr.
Defined.

Lemma exit_status_and_stdout_witness :
  exit_status (run (upscale_image sample_cfg down_env "pics/cat.png" "x2")
                 (start sample_files)) ≠ 0%Z ∧
  stdout (final (run (upscale_image sample_cfg down_env "pics/cat.png" "x2")
                   (start sample_files))) = [].
Proof.
  assert (exit_status (run (upscale_image sample_cfg down_env "pics/cat.png" "x2")
                         (start sample_files)) ≠ 0%Z) as Hexit
    by (vm_compute; discriminate).
  split; [exact Hexit|].
  exact (proj2 (exit_status_and_stdout sample_cfg down_env "pics/cat.png" "x2"
                  sample_files) Hexit).
Defined.

Lemma only_output_files_change_witness :
  fs (final (run (upscale_image sample_cfg fulldisk_env "pics/cat.png" "x2")
               (start sample_files))) !! "pics/cat.png"
  = Some sample_picture ∧
  List.filter is_save_step
    (trace (final (run (upscale_image sample_cfg down_env "pics/cat.png" "x2")
                     (start sample_files)))) = [].
Proof.
  split.
  - rewrite (proj1 (only_output_files_change sample_cfg fulldisk_env "pics/cat.png"
                      "x2" sample_files) "pics/cat.png").
    + reflexivity.
    + vm_compute. discriminate.
    + vm_compute. discriminate.
  - destruct (proj2 (only_output_files_change sample_cfg down_env "pics/cat.png" "x2"
                       sample_files) (SystemExit 1)) as [_ Hquiet].
    + vm_compute. reflexivity.
    + exact Hquiet.
Defined.

Lemma image_failure_witness :
  exit_status (run (upscale_image sample_cfg noimage_env "pics/cat.png" "x2")
                 (start sample_files)) = 1%Z ∧
  fs (final (run (upscale_image sample_cfg noimage_env "pics/cat.png" "x2")
               (start sample_files))) !! "pics/cat_upscaled_x2.png"
  = Some [x4d; x61; x6e].
Proof.
  destruct (image_failure_after_write sample_cfg noimage_env "pics/cat.png" "x2"
              sample_files [x4d; x61; x6e] "pics/cat_upscaled_x2.png" []
              (OtherException "PIL.UnidentifiedImageError")
              "cannot identify image file")
    as (Hexit & Hfs & _).
  - vm_compute. reflexivity.
  - left. repeat split; reflexivity.
  - reflexivity.
  - split; [exact Hexit|exact Hfs].
Defined.

Lemma other_write_error_witness :
  stderr (final (run (upscale_image sample_cfg nullbyte_env "pics/cat.png" "x2")
                   (start sample_files)))
  = [ sending "pics/cat.png" "x2";
      "Traceback (most recent call last):";
      "ValueError: embedded null byte" ].
Proof.
  destruct (other_write_error_is_uncaught sample_cfg nullbyte_env "pics/cat.png" "x2"
              sample_files [x4d; x61; x6e] ValueError "embedded null byte")
    as (_ & _ & _ & Herr & _).
  - vm_compute. reflexivity.
  - reflexivity.
  - reflexivity.
  - reflexivity.
  - exact Herr.
Defined.

Lemma straight_run_witness :
  exit_status (run (upscale_image sample_cfg good_env "pics/cat.png" "x2")
                 (start sample_files)) = 0%Z ∧
  map phase (trace (final (run (upscale_image sample_cfg good_env "pics/cat.png" "x2")
                             (start sample_files))))
  = [1; 2; 3; 4; 5; 6; 7]%nat.
Proof.
  destruct (straight_run sample_cfg good_env "pics/cat.png" "x2" sample_files
              sample_picture "TWFu" [x4d; x61; x6e] 8%N 6%N)
    as (Hexit & Htrace & _).
  - split; reflexivity.
  - split; reflexivity.
  - exact good_answers_with.
  - reflexivity.
  - reflexivity.
  - reflexivity.
  - reflexivity.
  - split; [exact Hexit|]. rewrite Htrace. reflexivity.
Defined.

Lemma success_iff_witness :
  exit_status (run (upscale_image sample_cfg good_env "pics/cat.png" "x2")
                 (start sample_files)) = 0%Z.
Proof.
  apply (proj2 (success_iff sample_cfg good_env "pics/cat.png" "x2" sample_files)).
  exists sample_picture, "TWFu", [x4d; x61; x6e], "pics/cat_upscaled_x2.png",
    [], (8%N, 6%N).
  split; [split; reflexivity|]. split; [split; reflexivity|].
  split; [exact good_answers_with|]. split; [reflexivity|].
  split; [|reflexivity]. left. repeat split; reflexivity.
Defined.

Lemma output_paths_are_not_the_source_witness :
  lacks posixpath.sep "x4" = true ∧
  primary_path good_env "pics/cat.png" "x4" ≠ "pics/cat.png" ∧
  fs (final (run (upscale_image sample_cfg good_env "pics/cat.png" "x4")
               (start sample_files))) !! "pics/cat.png"
  = Some sample_picture.
Proof.
  split; [reflexivity|].
  destruct (output_paths_are_not_the_source sample_cfg good_env "pics/cat.png" "x4"
              sample_files eq_refl) as (_ & _ & _ & Hne & _ & Hsame).
  split; [exact Hne|].
  refine (eq_trans (Hsame _ _) _).
  - vm_compute. discriminate.
  - vm_compute. discriminate.
  - reflexivity.
Defined.

Lemma rerun_witness :
  let o := run (upscale_image sample_cfg fulldisk_env "pics/cat.png" "x2")
             (start sample_files) in
  exit_status o = 0%Z ∧
  fs (final (run (upscale_image sample_cfg fulldisk_env "pics/cat.png" "x2")
               (start (fs (final o))))) = fs (final o).
Proof.
  cbv zeta.
  assert (exit_status (run (upscale_image sample_cfg fulldisk_env "pics/cat.png" "x2")
                         (start sample_files)) = 0%Z) as Hok
    by (vm_compute; reflexivity).
  split; [exact Hok|].
  destruct (rerun_changes_nothing sample_cfg fulldisk_env "pics/cat.png" "x2"
              sample_files) as (_ & Hfs & _).
  - vm_compute. discriminate.
  - vm_compute. discriminate.
  - exact Hok.
  - exact Hfs.
Defined.


Lemma parse_args_witness :
  parse_args good_env ["pics/cat.png"; "x2"] (start sample_files)
  = (Val ("pics/cat.png", "x2"), start sample_files).
Proof.
  apply (proj1 (parse_args_accepts_exactly good_env ["pics/cat.png"; "x2"]
                  (start sample_files) eq_refl)).
  split; [reflexivity|]. split; [|reflexivity].
  unfold choices. apply list_elem_of_In. left. reflexivity.
Defined.


Lemma main_runs_upscale_image_witness :
  run (main sample_cfg good_env ["pics/cat.png"; "x4"]) (start sample_files)
  = run (upscale_image sample_cfg good_env "pics/cat.png" "x4") (start sample_files).
Proof.
  unfold run.
  rewrite (main_runs_upscale_image sample_cfg good_env "pics/cat.png" "x4"
             (start sample_files)).
  - reflexivity.
  - discriminate.
  - reflexivity.
  - unfold choices. apply list_elem_of_In. right. left. reflexivity.
Defined.

Lemma b64decode_skips_witness :
  b64decode (PyStr "TW Fu") = mret [x4d; x61; x6e].
Proof.
  rewrite (b64decode_skips_other_characters "TW Fu" eq_refl). reflexivity.
Defined.

Lemma b64encode_shape_witness :
  String.length (b64encode sample_picture) = 8%nat ∧
  (b64encode sample_picture = b64encode sample_picture → sample_picture = sample_picture).
Proof.
  destruct (b64encode_shape sample_picture) as (Hlen & _ & Hinj).
  split; [exact Hlen|apply Hinj].
Defined.

Lemma splitext_output_filename_witness :
  posixpath.splitext (output_filename "pics/cat.png" "x2") = ("cat_upscaled_x2", ".png").
Proof.
  exact (splitext_output_filename "pics/cat.png" "x2" eq_refl eq_refl).
Defined.

(* --------------------------------------------------------------------- *)
(** ** The exit status of the program *)

Lemma parse_args_cases env argv w :
  existsb is_option_syntax argv = false →
  (∃ source_image upscale_factor,
     argv = [source_image; upscale_factor] ∧ upscale_factor ∈ choices ∧
     parse_args env argv w = (Val (source_image, upscale_factor), w))
  ∨ ((∀ source_image upscale_factor,
        argv = [source_image; upscale_factor] → upscale_factor ∉ choices) ∧
     ∃ message,
       parse_args env argv w =
       (Exc (SystemExit 2),
        logged [] [usage env; prog env +:+ ": error: " +:+ message] w)).
Proof.
  intros Hwords. unfold parse_args. rewrite Hwords.
  destruct argv as [|s [|f extra]].
  - right. split; [done|]. eexists. unfold parser_error. unfold_py. cbn. same_world.
  - right. split; [done|]. eexists. unfold parser_error. unfold_py. cbn. same_world.
  - destruct (bool_decide (f ∈ choices)) eqn:Hchoice.
    + apply bool_decide_eq_true in Hchoice. destruct extra as [|e extra].
      * left. by exists s, f.
      * right. split; [done|].
        eexists. unfold parser_error. unfold_py. cbn. same_world.
    + apply bool_decide_eq_false in Hchoice. right. split.
      * by intros s' f' [= <- <-].
      * eexists. unfold parser_error. unfold_py. cbn. same_world.
Qed.

(** Lines 139 to 145: on a command line of positional words the program
    ends with status 0, 1 or 2, and status 2 means exactly that the script
    is configured and [argparse] has refused the command line (it is not
    two words of which the second is [x2] or [x4]). *)
Theorem main_exit_status cfg env argv files :
  existsb is_option_syntax argv = false →
  let o := run (main cfg env argv) (start files) in
  (exit_status o = 0%Z ∨ exit_status o = 1%Z ∨ exit_status o = 2%Z) ∧
  (exit_status o = 2%Z ↔
   PROJECT_ID cfg ≠ "your-gcp-project-id" ∧
   ∀ source_image upscale_factor,
     argv = [source_image; upscale_factor] → upscale_factor ∉ choices).
Proof.
  intros Hwords o. subst o.
  destruct (decide (PROJECT_ID cfg = "your-gcp-project-id")) as [Hid|Hid].
  { rewrite (run_exit _ _ _ 1 (main_placeholder cfg env argv (start files) Hid)).
    cbn. split; [auto|]. split; [done|]. by intros [? _]. }
  destruct (parse_args_cases env argv (start files) Hwords)
    as [(s & f & -> & Hchoice & Hparse)|(Hnone & message & Hparse)].
  - unfold run.
    rewrite (main_runs_upscale_image cfg env s f (start files) Hid Hwords Hchoice).
    fold (run (upscale_image cfg env s f) (start files)).
    destruct (run_cases cfg env s f files)
      as [(e & _ & Hexit & _)
         |(data & _ & [(out & warning & _ & _
                        & [(width & height & _ & Hexit & _)
                          |(cls & msg & _ & Hexit & _)])
                      |[(cls & msg & _ & _ & Hexit & _)
                       |(cls & msg & _ & _ & _ & Hexit & _)]])];
      rewrite Hexit; (split; [auto|]); (split; [done|]);
      intros [_ Hnone]; by destruct (Hnone s f eq_refl).
  - rewrite (run_exit _ _
               (logged [] [usage env; prog env +:+ ": error: " +:+ message]
                  (start files)) 2).
    + cbn. split; [auto|]. by split.
    + unfold main. apply String.eqb_neq in Hid. rewrite Hid.
      unfold mbind at 1. unfold mret at 1. unfold mbind. by rewrite Hparse.
Qed.

Lemma main_exit_status_witness :
  exit_status (run (main sample_cfg good_env ["pics/cat.png"]) (start sample_files))
  = 2%Z.
Proof.
  apply (proj2 (main_exit_status sample_cfg good_env ["pics/cat.png"] sample_files
                  eq_refl)).
  split; [discriminate|]. intros s f Heq. discriminate Heq.
Defined.
